(** * TinyPedal: the fuel and sector estimators

    A shallow embedding of [tinypedal/module/module_sectors.py] and
    [tinypedal/module/module_fuel.py], and the properties of their
    per-tick state machines, persistence and worker loops.

    Conventions of the embedding.
    - A Python [float] (and an [int] mixed with floats) is an exact rational
      [Q]; rounding, infinities and NaN are outside the model.  Python's
      [==] on numbers is [Qeq_bool], [<] is [Qltb], [<=] is [Qle_bool].
    - A Python exception is a [Raise] in the [result] monad.
    - The local variables of [__update_data] that live across iterations of
      the [while] loop are the fields of a record; one iteration of the loop
      is a function on that record. *)

From Stdlib Require Import QArith ZArith List String Ascii Bool Lia Lqa Qround.
From Stdlib Require Import Qabs DecimalString.
Import ListNotations.

Open Scope Q_scope.

(** ** Python values and control *)

Module Py.

(** The exceptions the two modules can meet. *)
Inductive exn : Type :=
| IndexError
| ValueError
| ZeroDivisionError
| NameError
| FileNotFoundError
| TypeError.

Inductive result (A : Type) : Type :=
| Ok (a : A)
| Raise (e : exn).
Arguments Ok {A} a.
Arguments Raise {A} e.

Definition bind {A B : Type} (m : result A) (k : A -> result B) : result B :=
  match m with
  | Ok a => k a
  | Raise e => Raise e
  end.

(** [x < y] on numbers. *)
Definition Qltb (x y : Q) : bool := negb (Qle_bool y x).

(** Truth value of a number: [if x:]. *)
Definition truthy (x : Q) : bool := negb (Qeq_bool x 0).

(** [max(a, b)]: the first argument unless the second is greater. *)
Definition max (a b : Q) : Q := if Qltb a b then b else a.

(** [min(a, b)]: the first argument unless the second is smaller. *)
Definition min (a b : Q) : Q := if Qltb b a then b else a.

(** [a / b] on floats. *)
Definition div (a b : Q) : result Q :=
  if Qeq_bool b 0 then Raise ZeroDivisionError else Ok (a / b).

(** [math.modf(x)[0]]: the fractional part, with the sign of [x]. *)
Definition modf_frac (x : Q) : Q :=
  if Qltb x 0 then x - inject_Z (Qceiling x) else x - inject_Z (Qfloor x).

(** [math.ceil(x)]. *)
Definition ceil (x : Q) : Z := Qceiling x.

(** [l[i]] for a non-negative index. *)
Definition index {A : Type} (l : list A) (i : nat) : result A :=
  match nth_error l i with
  | Some a => Ok a
  | None => Raise IndexError
  end.

(** [l[-1]]. *)
Definition index_last {A : Type} (l : list A) : result A :=
  match rev l with
  | a :: _ => Ok a
  | [] => Raise IndexError
  end.

(** [map(f, l)] forced into a tuple, where [f] may raise. *)
Fixpoint map_raise {A B : Type} (f : A -> result B) (l : list A)
  : result (list B) :=
  match l with
  | [] => Ok []
  | a :: l' =>
      bind (f a) (fun b => bind (map_raise f l') (fun bs => Ok (b :: bs)))
  end.

End Py.

Import Py.

Notation "x <- m ;; k" := (Py.bind m (fun x => k))
  (at level 61, m at next level, right associativity).

(** ** Sectors module ([module_sectors.py]) *)

Module Sectors.

(** [MAGIC_NUM]: magic number for a variable not updated by the game. *)
Definition MAGIC_NUM : Q := 99999.

(** A list of three sector times, [[s1, s2, s3]].  Every such list of the
    module is built with exactly three elements and only updated by index. *)
Record vec3 : Type := Vec3 { v0 : Q; v1 : Q; v2 : Q }.

Definition set0 (v : vec3) (x : Q) : vec3 := Vec3 x (v1 v) (v2 v).
Definition set1 (v : vec3) (x : Q) : vec3 := Vec3 (v0 v) x (v2 v).
Definition set2 (v : vec3) (x : Q) : vec3 := Vec3 (v0 v) (v1 v) x.

(** [v[i]] for [i] in 0..2 (slot 2 for any larger index). *)
Definition get (v : vec3) (i : nat) : Q :=
  match i with
  | O => v0 v
  | S O => v1 v
  | _ => v2 v
  end.

(** Modelled from the spec: [val.sector_time] of the validator module on
    one sector time, "value > 0 and < the unset sentinel (99999)". *)
Definition sector_time (t : Q) : bool := Qltb 0 t && Qltb t MAGIC_NUM.

(** Modelled from the spec: [val.sector_time] of the validator module on
    a list of sector times, all of them "individually valid". *)
Definition sector_time_all (v : vec3) : bool :=
  sector_time (v0 v) && sector_time (v1 v) && sector_time (v2 v).

(** The telemetry read on one iteration. *)
Record telemetry : Type := Telemetry {
  sector_idx : Z;       (* api.read.lap.sector_index() *)
  laptime_valid : Q;    (* api.read.timing.last_laptime() *)
  curr_sector1 : Q;     (* api.read.timing.current_sector1() *)
  curr_sector2 : Q;     (* api.read.timing.current_sector2() *)
  last_sector2 : Q      (* api.read.timing.last_sector2() *)
}.

(** The variables set in the [if not reset] block, alive while the session
    is. *)
Record locals : Type := Locals {
  last_sector_idx : Z;  (* previous recorded sector index value *)
  combo_id : string;    (* current car & track combo *)
  session_id : list Q;  (* session identity, a tuple *)
  laptime_best : Q;
  best_s_tb : vec3;     (* theory best sector times *)
  best_s_pb : vec3;     (* personal best sector times *)
  delta_s_tb : vec3;    (* deltabest times against all time best sector *)
  delta_s_pb : vec3;    (* deltabest times against best laptime sector *)
  prev_s : vec3;        (* previous sector times *)
  no_delta_s : bool
}.

(** "While vehicle in S1, update S3 data": the body of the first branch. *)
Definition update_s3 (st : locals) (t : telemetry) : locals :=
  let prev := set2 (prev_s st) (laptime_valid t - last_sector2 t) in
  let delta_pb :=
    if sector_time (v2 (best_s_pb st))
    then set2 (delta_s_pb st)
              (v2 prev - v2 (best_s_pb st) + v1 (delta_s_pb st))
    else delta_s_pb st in
  let delta_tb :=
    if sector_time (v2 (best_s_tb st))
    then set2 (delta_s_tb st) (v2 prev - v2 (best_s_tb st))
    else delta_s_tb st in
  let no_delta := negb (sector_time (v2 (best_s_tb st))) in
  let best_tb :=
    if Qltb (v2 prev) (v2 (best_s_tb st))
    then set2 (best_s_tb st) (v2 prev)
    else best_s_tb st in
  let new_pb := Qltb (laptime_valid t) (laptime_best st)
                && sector_time_all prev in
  {| last_sector_idx := sector_idx t;
     combo_id := combo_id st;
     session_id := session_id st;
     laptime_best := if new_pb then laptime_valid t else laptime_best st;
     best_s_tb := best_tb;
     best_s_pb := if new_pb then prev else best_s_pb st;
     delta_s_tb := delta_tb;
     delta_s_pb := delta_pb;
     prev_s := prev;
     no_delta_s := no_delta |}.

(** "While vehicle in S2, update S1 data". *)
Definition update_s1 (st : locals) (t : telemetry) : locals :=
  let prev := set0 (prev_s st) (curr_sector1 t) in
  let delta_pb :=
    if sector_time (v0 (best_s_pb st))
    then set0 (delta_s_pb st) (v0 prev - v0 (best_s_pb st))
    else delta_s_pb st in
  let delta_tb :=
    if sector_time (v0 (best_s_tb st))
    then set0 (delta_s_tb st) (v0 prev - v0 (best_s_tb st))
    else delta_s_tb st in
  let no_delta := negb (sector_time (v0 (best_s_tb st))) in
  let best_tb :=
    if Qltb (v0 prev) (v0 (best_s_tb st))
    then set0 (best_s_tb st) (v0 prev)
    else best_s_tb st in
  {| last_sector_idx := sector_idx t;
     combo_id := combo_id st;
     session_id := session_id st;
     laptime_best := laptime_best st;
     best_s_tb := best_tb;
     best_s_pb := best_s_pb st;
     delta_s_tb := delta_tb;
     delta_s_pb := delta_pb;
     prev_s := prev;
     no_delta_s := no_delta |}.

(** "While vehicle in S3, update S2 data". *)
Definition update_s2 (st : locals) (t : telemetry) : locals :=
  let prev := set1 (prev_s st) (curr_sector2 t - curr_sector1 t) in
  let delta_pb :=
    if sector_time (v1 (best_s_pb st))
    then set1 (delta_s_pb st)
              (v1 prev - v1 (best_s_pb st) + v0 (delta_s_pb st))
    else delta_s_pb st in
  let delta_tb :=
    if sector_time (v1 (best_s_tb st))
    then set1 (delta_s_tb st) (v1 prev - v1 (best_s_tb st))
    else delta_s_tb st in
  let no_delta := negb (sector_time (v1 (best_s_tb st))) in
  let best_tb :=
    if Qltb (v1 prev) (v1 (best_s_tb st))
    then set1 (best_s_tb st) (v1 prev)
    else best_s_tb st in
  {| last_sector_idx := sector_idx t;
     combo_id := combo_id st;
     session_id := session_id st;
     laptime_best := laptime_best st;
     best_s_tb := best_tb;
     best_s_pb := best_s_pb st;
     delta_s_tb := delta_tb;
     delta_s_pb := delta_pb;
     prev_s := prev;
     no_delta_s := no_delta |}.

(** The guards of the three branches. *)
Definition in_s1 (t : telemetry) : bool :=
  (sector_idx t =? 0)%Z && Qltb 0 (laptime_valid t)
  && Qltb 0 (last_sector2 t).

Definition in_s2 (t : telemetry) : bool :=
  (sector_idx t =? 1)%Z && Qltb 0 (curr_sector1 t).

Definition in_s3 (t : telemetry) : bool :=
  (sector_idx t =? 2)%Z && Qltb 0 (curr_sector2 t)
  && Qltb 0 (curr_sector1 t).

(** "Update previous & best sector time": one iteration of the loop body
    while the session is active, after the reset block. *)
Definition update_data (st : locals) (t : telemetry) : locals :=
  if negb (last_sector_idx st =? sector_idx t)%Z then
    if in_s1 t then update_s3 st t
    else if in_s2 t then update_s1 st t
    else if in_s3 t then update_s2 st t
    else st
  else st.

(** The [minfo.sectors] fields. *)
Record output : Type := Output {
  sectorIndex : Z;
  deltaSectorBestPB : vec3;
  deltaSectorBestTB : vec3;
  sectorBestTB : vec3;
  sectorBestPB : vec3;
  sectorPrev : vec3;
  noDeltaSector : bool
}.

(** "Output sectors data". *)
Definition publish (st : locals) : output :=
  {| sectorIndex := Z.min (Z.max (last_sector_idx st) 0) 2;
     deltaSectorBestPB := delta_s_pb st;
     deltaSectorBestTB := delta_s_tb st;
     sectorBestTB := best_s_tb st;
     sectorBestPB := best_s_pb st;
     sectorPrev := prev_s st;
     noDeltaSector := no_delta_s st |}.

(** *** Persistence of the sector record *)

(** Modelled from the spec: [fmt.pipe_split] of the formatter module, the
    fields of a "pipe-delimited record string". *)
Fixpoint pipe_split (s : string) : list string :=
  match s with
  | EmptyString => [EmptyString]
  | String c s' =>
      if Ascii.eqb c "|" then EmptyString :: pipe_split s'
      else match pipe_split s' with
           | w :: ws => String c w :: ws
           | [] => [String c EmptyString]
           end
  end.

(** Modelled from the spec: [fmt.pipe_join] of the formatter module, on
    fields already turned into strings. *)
Definition pipe_join (fields : list string) : string :=
  String.concat "|" fields.

(** [final_list] of [parse_save_string]: the seven-element list
    [[combo, type, elapsed, laps, laptime_best, best_s_tb, best_s_pb]], or
    the one-element list [["None"]]. *)
Inductive saved_data : Type :=
| Saved7 (combo : string) (stype elapsed laps best : Q) (tb pb : vec3)
| SavedNone.

(** [saved_data[0]]. *)
Definition saved_0 (d : saved_data) : string :=
  match d with
  | Saved7 combo _ _ _ _ _ _ => combo
  | SavedNone => "None"
  end.

(** [saved_data[i]] for [i] in 1..4. *)
Definition saved_num (d : saved_data) (i : nat) : result Q :=
  match d with
  | Saved7 _ stype elapsed laps best _ _ =>
      Py.index [stype; elapsed; laps; best] (i - 1)
  | SavedNone => Raise IndexError
  end.

(** [saved_data[i]] for [i] in 5..6. *)
Definition saved_list (d : saved_data) (i : nat) : result vec3 :=
  match d with
  | Saved7 _ _ _ _ _ tb pb => Py.index [tb; pb] (i - 5)
  | SavedNone => Raise IndexError
  end.

(** [try: ... except IndexError: handler]. *)
Definition except_IndexError {A : Type} (body : result A) (handler : A)
  : result A :=
  match body with
  | Raise IndexError => Ok handler
  | r => r
  end.

(** The settings of the module: [self.mcfg["sector_info"]] in memory, and
    what the last [self.cfg.save()] wrote to disk. *)
Record config : Type := Config {
  sector_info : string;
  sector_info_on_disk : string
}.

Section Persistence.

(** The built-in [float] on a string; [None] is a [ValueError]. *)
Variable py_float : string -> option Q.

(** The built-in [str] on a float. *)
Variable py_str : Q -> string.

Definition float_of (s : string) : result Q :=
  match py_float s with
  | Some q => Ok q
  | None => Raise ValueError
  end.

(** "Convert string list to str, float": the tuple
    [(string_list[0], *map(float, string_list[1:]))]. *)
Definition convert_value (string_list : list string)
  : result (string * list Q) :=
  s0 <- Py.index string_list 0 ;;
  floats <- Py.map_raise float_of (tl string_list) ;;
  Ok (s0, floats).

(** [data[i]] for [i >= 1] in the tuple of [convert_value]. *)
Definition data_num (data : string * list Q) (i : nat) : result Q :=
  Py.index (snd data) (i - 1).

(** "Parse last saved sector data". *)
Definition parse_save_string (save_data : string) : result saved_data :=
  let string_list := pipe_split save_data in
  data <- convert_value string_list ;;
  except_IndexError
    (d1 <- data_num data 1 ;;
     d2 <- data_num data 2 ;;
     d3 <- data_num data 3 ;;
     d4 <- data_num data 4 ;;
     d5 <- data_num data 5 ;;
     d6 <- data_num data 6 ;;
     d7 <- data_num data 7 ;;
     d8 <- data_num data 8 ;;
     d9 <- data_num data 9 ;;
     d10 <- data_num data 10 ;;
     Ok (Saved7 (fst data) d1 d2 d3 d4 (Vec3 d5 d6 d7) (Vec3 d8 d9 d10)))
    SavedNone.

(** The test of [load_sector_data], with the short-circuit of [and]. *)
Definition same_session (combo : string) (session : list Q)
           (saved : saved_data) : result bool :=
  if String.eqb combo (saved_0 saved) then
    s1 <- saved_num saved 1 ;;
    c0 <- Py.index session 0 ;;
    if Qeq_bool s1 c0 then
      s2 <- saved_num saved 2 ;;
      c1 <- Py.index session 1 ;;
      if Qle_bool s2 c1 then
        s3 <- saved_num saved 3 ;;
        c2 <- Py.index session 2 ;;
        Ok (Qle_bool s3 c2)
      else Ok false
    else Ok false
  else Ok false.

(** The sentinel defaults of the [else] branch. *)
Definition no_sector_data : Q * vec3 * vec3 :=
  (MAGIC_NUM,
   Vec3 MAGIC_NUM MAGIC_NUM MAGIC_NUM,
   Vec3 MAGIC_NUM MAGIC_NUM MAGIC_NUM).

(** "Load and verify sector data": returns
    [(laptime_best, best_s_tb, best_s_pb)]. *)
Definition load_sector_data (cfg : config) (combo : string)
           (session : list Q) : result (Q * vec3 * vec3) :=
  saved <- parse_save_string (sector_info cfg) ;;
  same <- same_session combo session saved ;;
  if same then
    best <- saved_num saved 4 ;;
    tb <- saved_list saved 5 ;;
    pb <- saved_list saved 6 ;;
    Ok (best, tb, pb)
  else Ok no_sector_data.

Definition vec3_strs (v : vec3) : list string :=
  [py_str (v0 v); py_str (v1 v); py_str (v2 v)].

(** "Verify and save sector data". *)
Definition save_sector_data (cfg : config) (combo : string)
           (session : list Q) (pb : vec3) (best : Q) (tb : vec3)
  : config :=
  if negb (Nat.eqb (List.length session) 0) && sector_time_all pb then
    let record :=
      pipe_join (combo :: List.map py_str session
                   ++ [py_str best] ++ vec3_strs tb ++ vec3_strs pb) in
    {| sector_info := record; sector_info_on_disk := record |}
  else cfg.

(** *** The worker *)

(** What one wake of the loop reads from the API. *)
Record env : Type := Env {
  api_state : bool;               (* api.state *)
  read_combo_id : string;         (* api.read.check.combo_id() *)
  read_session_id : list Q;       (* api.read.check.session_id() *)
  read : telemetry
}.

(** The [Realtime] object with the variables of its update thread. *)
Record worker : Type := Worker {
  cfg : config;
  active_interval : Q;
  idle_interval : Q;
  stopped : bool;                 (* self.stopped *)
  event : bool;                   (* self.event: set or clear *)
  in_active_list : bool;          (* self in cfg.active_module_list *)
  reset : bool;
  update_interval : Q;
  vars : option locals;           (* [None]: not yet bound *)
  minfo : option output           (* [None]: nothing published yet *)
}.

(** [start()]: a no-op unless the worker is stopped. *)
Definition start (w : worker) : worker :=
  if stopped w then
    {| cfg := cfg w;
       active_interval := active_interval w;
       idle_interval := idle_interval w;
       stopped := false;
       event := false;
       in_active_list := true;
       reset := false;
       update_interval := active_interval w;
       vars := None;
       minfo := minfo w |}
  else w.

(** [stop()]. *)
Definition stop (w : worker) : worker :=
  {| cfg := cfg w;
     active_interval := active_interval w;
     idle_interval := idle_interval w;
     stopped := stopped w;
     event := true;
     in_active_list := in_active_list w;
     reset := reset w;
     update_interval := update_interval w;
     vars := vars w;
     minfo := minfo w |}.

(** The variables of the [if not reset] block. *)
Definition init_locals (combo : string) (session : list Q)
           (loaded : Q * vec3 * vec3) : locals :=
  let '(best, tb, pb) := loaded in
  {| last_sector_idx := -1;
     combo_id := combo;
     session_id := session;
     laptime_best := best;
     best_s_tb := tb;
     best_s_pb := pb;
     delta_s_tb := Vec3 0 0 0;
     delta_s_pb := Vec3 0 0 0;
     prev_s := Vec3 MAGIC_NUM MAGIC_NUM MAGIC_NUM;
     no_delta_s := true |}.

(** A variable of the reset block read before it was ever bound. *)
Definition bound (v : option locals) : result locals :=
  match v with
  | Some st => Ok st
  | None => Raise NameError
  end.

(** The body of the [while] loop: one timer wake with the event clear. *)
Definition loop_body (w : worker) (e : env) : result worker :=
  if api_state e then
    st <- (if negb (reset w) then
             loaded <- load_sector_data (cfg w) (read_combo_id e)
                                        (read_session_id e) ;;
             Ok (init_locals (read_combo_id e) (read_session_id e) loaded)
           else bound (vars w)) ;;
    let st' := update_data st (read e) in
    Ok {| cfg := cfg w;
          active_interval := active_interval w;
          idle_interval := idle_interval w;
          stopped := stopped w;
          event := event w;
          in_active_list := in_active_list w;
          reset := true;
          update_interval :=
            if negb (reset w) then active_interval w
            else update_interval w;
          vars := Some st';
          minfo := Some (publish st') |}
  else if reset w then
    st <- bound (vars w) ;;
    Ok {| cfg := save_sector_data (cfg w) (combo_id st) (session_id st)
                   (best_s_pb st) (laptime_best st) (best_s_tb st);
          active_interval := active_interval w;
          idle_interval := idle_interval w;
          stopped := stopped w;
          event := event w;
          in_active_list := in_active_list w;
          reset := false;
          update_interval := idle_interval w;
          vars := vars w;
          minfo := minfo w |}
  else Ok w.

(** What follows the loop, once [event.wait] returned true. *)
Definition loop_exit (w : worker) : worker :=
  {| cfg := cfg w;
     active_interval := active_interval w;
     idle_interval := idle_interval w;
     stopped := true;
     event := event w;
     in_active_list := false;
     reset := reset w;
     update_interval := update_interval w;
     vars := vars w;
     minfo := minfo w |}.

(** One wake of [self.event.wait(update_interval)] in the update thread:
    nothing when no thread runs, the exit when the event is set, the loop
    body otherwise. *)
Definition wake (w : worker) (e : env) : result worker :=
  if stopped w then Ok w
  else if event w then Ok (loop_exit w)
  else loop_body w e.

End Persistence.

End Sectors.


(** ** Fuel module ([module_fuel.py]) *)

Module Fuel.

(** [DELTA_ZERO = 0.0,0.0]: a row is a tuple of two or three floats. *)
Definition row : Type := list Q.
Definition curve : Type := list row.
Definition DELTA_ZERO : row := [0; 0].

(** *** The projection functions *)

(** "Estimate fuel consumption". *)
Definition end_lap_consumption (used_last delta_fuel : Q) (condition : bool)
  : Q :=
  if condition then used_last + delta_fuel else used_last.

(** "Estimate end-stint remaining fuel before pitting". *)
Definition end_stint_fuel (amount_curr used_curr used_est : Q) : result Q :=
  if Py.truthy used_est then
    let total_fuel := amount_curr + used_curr in
    q <- Py.div total_fuel used_est ;;
    Ok (Py.modf_frac q * used_est)
  else Ok 0.

(** "Estimate laps current fuel can last". *)
Definition end_stint_laps (amount_curr used_est : Q) : result Q :=
  if Py.truthy used_est then Py.div amount_curr used_est else Ok 0.

(** "Estimate empty capacity at end of current lap". *)
Definition end_lap_empty_capacity (capacity fuel_remain fuel_consumption : Q)
  : Q :=
  capacity - fuel_remain + fuel_consumption.

(** "Estimate end-stint pit stop counts". *)
Definition end_stint_pit_counts (amount_need capacity : Q) : result Q :=
  Py.div amount_need capacity.

(** "Estimate end-lap pit stop counts". *)
Definition end_lap_pit_counts (amount_need est_empty capacity : Q)
  : result Q :=
  let max_add_curr := Py.min amount_need est_empty in
  est_pits_curr <- (if Py.truthy est_empty
                    then Py.div max_add_curr est_empty
                    else Ok 1) ;;
  est_pits_end <- Py.div (amount_need - max_add_curr) capacity ;;
  Ok (est_pits_curr + est_pits_end).

(** "Estimate fuel consumption for one less pit stop". *)
Definition less_pit_stop_consumption
           (est_pits_late capacity amount_curr laps_left : Q) : result Q :=
  if Py.truthy laps_left then
    let pit_counts := (Py.ceil est_pits_late - 1)%Z in
    Py.div (inject_Z pit_counts * capacity + amount_curr) laps_left
  else Ok 0.

(** *** State and telemetry *)

Definition xyz : Type := (Q * Q * Q)%type.

(** A global position held either in a list (the initial [[0,0,0]]) or in a
    tuple (every reading): a list never equals a tuple. *)
Inductive position : Type :=
| AsList (p : xyz)
| AsTuple (p : xyz).

Definition coords (g : position) : xyz :=
  match g with
  | AsList p => p
  | AsTuple p => p
  end.

Definition xyz_eqb (p q : xyz) : bool :=
  let '(a, b, c) := p in
  let '(a', b', c') := q in
  Qeq_bool a a' && Qeq_bool b b' && Qeq_bool c c'.

(** [g == h] on the two kinds of sequences. *)
Definition position_eqb (g h : position) : bool :=
  match g, h with
  | AsList p, AsList q => xyz_eqb p q
  | AsTuple p, AsTuple q => xyz_eqb p q
  | _, _ => false
  end.

(** The telemetry read on one iteration. *)
Record telemetry : Type := Telemetry {
  lap_stime : Q;            (* api.read.timing.start() *)
  current_laptime : Q;      (* api.read.timing.current_laptime() *)
  laptime_valid : Q;        (* api.read.timing.last_laptime() *)
  time_left : Q;            (* api.read.session.remaining() *)
  amount_curr : Q;          (* api.read.vehicle.fuel() *)
  tank_capacity : Q;        (* api.read.vehicle.tank_capacity() *)
  in_garage : bool;         (* api.read.vehicle.in_garage() *)
  lap_distance : Q;         (* api.read.lap.distance() *)
  gps_curr : xyz;           (* pos_x(), pos_y(), pos_z() *)
  lap_number : Z;           (* api.read.lap.total_laps() *)
  lap_into : Q;             (* api.read.lap.percent() *)
  laps_max : Z;             (* api.read.lap.maximum() *)
  in_pits : bool;           (* api.read.vehicle.in_pits() *)
  lap_type : bool           (* api.read.session.lap_type() *)
}.

(** [laptime_curr = max(api.read.timing.current_laptime(), 0)]. *)
Definition laptime_curr (t : telemetry) : Q := Py.max (current_laptime t) 0.

(** [capacity = max(api.read.vehicle.tank_capacity(), 1)]. *)
Definition capacity (t : telemetry) : Q := Py.max (tank_capacity t) 1.

(** The variables of the [if not reset] block that are read on a later
    iteration before being assigned.  ([amount_left], [used_est] and the
    [est_*] variables are assigned on every iteration before they are read;
    they appear in [output] only.) *)
Record locals : Type := Locals {
  recording : bool;
  validating : bool;
  delayed_save : bool;
  pit_lap : bool;           (* whether pit in or pit out lap *)
  combo_id : string;
  delta_list_last : curve;
  used_last : Q;
  laptime_last : Q;
  delta_list_curr : curve;  (* distance, fuel used, laptime *)
  delta_list_temp : curve;  (* last lap temp *)
  delta_fuel : Q;           (* delta fuel consumption compare to last lap *)
  amount_start : Q;         (* start fuel reading *)
  amount_last : Q;          (* last fuel reading *)
  amount_need : Q;          (* total additional fuel need to finish race *)
  used_curr : Q;            (* current lap fuel consumption *)
  used_last_raw : Q;        (* raw usage *)
  last_lap_stime : Q;       (* last lap start time *)
  laps_left : Q;            (* amount laps left at current lap distance *)
  pos_last : Q;             (* last checked vehicle position *)
  pos_estimate : Q;         (* calculated position *)
  gps_last : position       (* last global position *)
}.

(** [pit_lap = bool(pit_lap + api.read.vehicle.in_pits())]. *)
Definition read_pit_lap (pit_lap in_pits : bool) : bool :=
  negb (Z.b2z pit_lap + Z.b2z in_pits =? 0)%Z.

(** "Realtime fuel consumption": the new
    [(amount_start, amount_last, used_curr)]. *)
Definition fuel_consumption (amount_start amount_last used_curr amount_curr : Q)
  : Q * Q * Q :=
  if Qltb amount_last amount_curr then
    (amount_curr, amount_curr, used_curr)
  else if Qltb amount_curr amount_last then
    (amount_start, amount_curr, used_curr + (amount_last - amount_curr))
  else (amount_start, amount_last, used_curr).

(** The test [lap_stime > last_lap_stime != -1] of "Lap start & finish
    detection". *)
Definition new_lap (lap_stime last_lap_stime : Q) : bool :=
  Qltb last_lap_stime lap_stime && negb (Qeq_bool last_lap_stime (-1)).

(** The test [len(delta_list_curr) > 1 and not pit_lap] under which the lap
    that ends closes its curve and stages it for validation. *)
Definition stages (delta_list_curr : curve) (pit_lap : bool) : bool :=
  (1 <? List.length delta_list_curr)%nat && negb pit_lap.

(** [amount_left] when [end_stint_fuel] returns: the fuel left before the
    next stop. *)
Definition fuel_before_stop (st : locals) (t : telemetry) : Q :=
  let used_est :=
    end_lap_consumption
      (used_last st) (delta_fuel st)
      ((0 =? Z.b2z (pit_lap st))%Z && (Z.b2z (pit_lap st) <? lap_number t)%Z) in
  if Py.truthy used_est
  then Py.modf_frac ((amount_curr t + used_curr st) / used_est) * used_est
  else 0.

(** The [minfo.fuel] fields. *)
Record output : Type := Output {
  tankCapacity : Q;
  amountFuelStart : Q;
  amountFuelCurrent : Q;
  amountFuelNeeded : Q;
  amountFuelBeforePitstop : Q;
  lastLapFuelConsumption : Q;
  estimatedFuelConsumption : Q;
  estimatedLaps : Q;
  estimatedMinutes : Q;
  estimatedEmptyCapacity : Q;
  estimatedNumPitStopsEnd : Q;
  estimatedNumPitStopsEarly : Q;
  deltaFuelConsumption : Q;
  oneLessPitFuelConsumption : Q
}.

(** [laps_left] and [amount_need] assigned. *)
Definition with_need (st : locals) (laps need : Q) : locals :=
  {| recording := recording st;
     validating := validating st;
     delayed_save := delayed_save st;
     pit_lap := pit_lap st;
     combo_id := combo_id st;
     delta_list_last := delta_list_last st;
     used_last := used_last st;
     laptime_last := laptime_last st;
     delta_list_curr := delta_list_curr st;
     delta_list_temp := delta_list_temp st;
     delta_fuel := delta_fuel st;
     amount_start := amount_start st;
     amount_last := amount_last st;
     amount_need := need;
     used_curr := used_curr st;
     used_last_raw := used_last_raw st;
     last_lap_stime := last_lap_stime st;
     laps_left := laps;
     pos_last := pos_last st;
     pos_estimate := pos_estimate st;
     gps_last := gps_last st |}.

(** *** One iteration of the loop while the session is active *)

Section Tick.

(** [round(x, 6)]. *)
Variable round6 : Q -> Q.

(** [calc.distance] between two global positions. *)
Variable distance : xyz -> xyz -> Q.

(** [calc.delta_telemetry(position, usage, reference curve, condition)]. *)
Variable delta_telemetry : Q -> Q -> curve -> bool -> Q.

(** [(amount_start, amount_last, used_curr)] after "Realtime fuel
    consumption". *)
Definition fuel_step (st : locals) (t : telemetry) : Q * Q * Q :=
  fuel_consumption (amount_start st) (amount_last st) (used_curr st)
                   (amount_curr t).

(** The current curve with its end value appended. *)
Definition closed_curve (st : locals) (t : telemetry) : curve :=
  delta_list_curr st
    ++ [[round6 (pos_last st + 10);
         round6 (snd (fuel_step st t));
         round6 (lap_stime t - last_lap_stime st)]].

(** Whether this iteration closes the current curve and stages it for
    validation. *)
Definition staged (st : locals) (t : telemetry) : bool :=
  new_lap (lap_stime t) (last_lap_stime st)
  && stages (delta_list_curr st) (read_pit_lap (pit_lap st) (in_pits t)).

(** From "Read telemetry" to "Calc delta": the tracking of the lap, which
    divides nowhere. *)
Definition track (st : locals) (t : telemetry) : locals :=
  let lc := laptime_curr t in
  let pos_curr := lap_distance t in
  let pit_lap1 := read_pit_lap (pit_lap st) (in_pits t) in
  (* Realtime fuel consumption *)
  let amount_start1 := fst (fst (fuel_step st t)) in
  let amount_last1 := snd (fst (fuel_step st t)) in
  let used_curr1 := snd (fuel_step st t) in
  (* Lap start & finish detection *)
  let lap := new_lap (lap_stime t) (last_lap_stime st) in
  let delta_list_temp1 :=
    if staged st t then closed_curve st t else delta_list_temp st in
  let validating1 := if staged st t then true else validating st in
  let delta_list_curr1 := if lap then [DELTA_ZERO] else delta_list_curr st in
  let pos_last1 := if lap then pos_curr else pos_last st in
  let used_last_raw1 := if lap then used_curr1 else used_last_raw st in
  let used_curr2 := if lap then 0 else used_curr1 in
  let recording1 := if lap then Qltb lc 1 else recording st in
  let pit_lap2 := if lap then false else pit_lap1 in
  (* 1 sec position distance check after new lap begins *)
  let snap := Qltb 0 lc && Qltb lc 1 && Qltb 300 pos_curr in
  let pos_last2 := if snap then 0 else pos_last1 in
  let pos_curr1 := if snap then 0 else pos_curr in
  (* Update if position value is different & positive *)
  let moved := Qle_bool 0 pos_curr1 && negb (Qeq_bool pos_curr1 pos_last2) in
  let delta_list_curr2 :=
    if moved && (recording1 && Qltb pos_last2 pos_curr1)
    then delta_list_curr1 ++ [[round6 pos_curr1; round6 used_curr2]]
    else delta_list_curr1 in
  let pos_estimate1 := if moved then pos_curr1 else pos_estimate st in
  let pos_last3 := if moved then pos_curr1 else pos_last2 in
  (* Validating 1s after passing finish line *)
  let in_window := Qltb 0.2 lc && Qle_bool lc 3 in
  let confirmed := validating1 && in_window && Qltb 0 (laptime_valid t) in
  let expired :=
    validating1 && negb in_window && (Qltb 3 lc && Qltb lc 5) in
  let used_last1 := if confirmed then used_last_raw1 else used_last st in
  let laptime_last1 :=
    if confirmed then laptime_valid t else laptime_last st in
  let delta_list_last1 :=
    if confirmed then delta_list_temp1 else delta_list_last st in
  let delta_list_temp2 :=
    if confirmed then [DELTA_ZERO] else delta_list_temp1 in
  let validating2 :=
    if confirmed || expired then false else validating1 in
  let delayed_save1 := if confirmed then true else delayed_save st in
  (* Calc delta *)
  let gps_moved := negb (position_eqb (gps_last st) (AsTuple (gps_curr t))) in
  let pos_estimate2 :=
    if gps_moved
    then pos_estimate1 + distance (coords (gps_last st)) (gps_curr t)
    else pos_estimate1 in
  let gps_last1 := if gps_moved then AsTuple (gps_curr t) else gps_last st in
  let delta_fuel1 :=
    if gps_moved
    then delta_telemetry pos_estimate2 used_curr2 delta_list_last1
                         (Qltb 0.3 lc && negb (in_garage t))
    else delta_fuel st in
  {| recording := recording1;
     validating := validating2;
     delayed_save := delayed_save1;
     pit_lap := pit_lap2;
     combo_id := combo_id st;
     delta_list_last := delta_list_last1;
     used_last := used_last1;
     laptime_last := laptime_last1;
     delta_list_curr := delta_list_curr2;
     delta_list_temp := delta_list_temp2;
     delta_fuel := delta_fuel1;
     amount_start := amount_start1;
     amount_last := amount_last1;
     amount_need := amount_need st;
     used_curr := used_curr2;
     used_last_raw := used_last_raw1;
     last_lap_stime := lap_stime t;
     laps_left := laps_left st;
     pos_last := pos_last3;
     pos_estimate := pos_estimate2;
     gps_last := gps_last1 |}.

(** "Total refuel = laps left * last consumption - remaining fuel": the new
    [(laps_left, amount_need)]. *)
Definition total_refuel (st : locals) (t : telemetry) (used_est : Q)
  : result (Q * Q) :=
  if lap_type t then
    let full_laps_left := (laps_max t - lap_number t)%Z in
    let laps := inject_Z full_laps_left - lap_into t in
    Ok (laps, laps * used_est - amount_curr t)
  else if Qltb 0 (laptime_last st) then
    q <- Py.div (laptime_curr t) (laptime_last st) ;;
    let rel_lap_into := Py.modf_frac q * laptime_last st in
    q' <- Py.div (time_left t + rel_lap_into) (laptime_last st) ;;
    let full_laps_left := Py.ceil q' in
    let laps :=
      if Qltb 0.2 (laptime_curr t)
      then Py.max (inject_Z full_laps_left - lap_into t) 0
      else laps_left st in
    Ok (laps, inject_Z full_laps_left * used_est - used_curr st - amount_curr t)
  else Ok (laps_left st, amount_need st).

(** From "Exclude first lap & pit in & out lap" to "Output fuel data": the
    projections, on the state that [track] leaves. *)
Definition project (st : locals) (t : telemetry) : result (locals * output) :=
  let used_est :=
    end_lap_consumption
      (used_last st) (delta_fuel st)
      ((0 =? Z.b2z (pit_lap st))%Z && (Z.b2z (pit_lap st) <? lap_number t)%Z) in
  need <- total_refuel st t used_est ;;
  let '(laps, amount_need1) := need in
  amount_left <- end_stint_fuel (amount_curr t) (used_curr st) used_est ;;
  est_runlaps <- end_stint_laps (amount_curr t) used_est ;;
  let est_runmins := est_runlaps * laptime_last st / 60 in
  let est_empty :=
    end_lap_empty_capacity (capacity t) (amount_curr t + used_curr st)
                           (used_last st + delta_fuel st) in
  est_pits_late <- end_stint_pit_counts amount_need1
                                        (capacity t - amount_left) ;;
  est_pits_early <- end_lap_pit_counts amount_need1 est_empty
                                       (capacity t - amount_left) ;;
  used_est_less <- less_pit_stop_consumption est_pits_late (capacity t)
                                             (amount_curr t) laps ;;
  Ok (with_need st laps amount_need1,
      {| tankCapacity := capacity t;
         amountFuelStart := amount_start st;
         amountFuelCurrent := amount_curr t;
         amountFuelNeeded := amount_need1;
         amountFuelBeforePitstop := amount_left;
         lastLapFuelConsumption := used_last_raw st;
         estimatedFuelConsumption := used_last st + delta_fuel st;
         estimatedLaps := est_runlaps;
         estimatedMinutes := est_runmins;
         estimatedEmptyCapacity := est_empty;
         estimatedNumPitStopsEnd := est_pits_late;
         estimatedNumPitStopsEarly := est_pits_early;
         deltaFuelConsumption := delta_fuel st;
         oneLessPitFuelConsumption := used_est_less |}).

(** One iteration of the loop body while the session is active, after the
    reset block. *)
Definition update_data (st : locals) (t : telemetry)
  : result (locals * output) :=
  project (track st t) t.

(** The states after each of a sequence of iterations. *)
Fixpoint run (st : locals) (ts : list telemetry) : result (list locals) :=
  match ts with
  | [] => Ok []
  | t :: ts' =>
      r <- update_data st t ;;
      rest <- run (fst r) ts' ;;
      Ok (fst r :: rest)
  end.

End Tick.

(** *** Persistence of the fuel curve *)

(** What [csv.reader(..., quoting=csv.QUOTE_NONNUMERIC)] makes of a file
    with no quoted field, as [save_deltafuel] writes them: every field is
    converted with [float], which gives rows of floats, or raises
    [ValueError] on a field that is not a number.  A quoted field, which
    the reader would hand over as a string without raising, is not
    covered. *)
Inductive csv_file : Type :=
| Numeric (rows : curve)
| NonNumeric.

(** The [.fuel] files under [PATH_FUEL], by combo; the first entry for a
    combo is the current file. *)
Definition files : Type := list (string * csv_file).

Fixpoint open_read (fs : files) (combo : string) : result csv_file :=
  match fs with
  | [] => Raise FileNotFoundError
  | (name, f) :: fs' =>
      if String.eqb name combo then Ok f else open_read fs' combo
  end.

(** "Save fuel consumption data". *)
Definition save_deltafuel (fs : files) (combo : string) (listname : curve)
  : files :=
  if (1 <? List.length listname)%nat
  then (combo, Numeric listname) :: fs
  else fs.

(** [(lastlist[-1][1], lastlist[-1][2])]. *)
Definition last_row_reads (lastlist : curve) : result (Q * Q) :=
  r <- Py.index_last lastlist ;;
  used <- Py.index r 1 ;;
  laptime <- Py.index r 2 ;;
  Ok (used, laptime).

(** [except (FileNotFoundError, IndexError, ValueError, TypeError)]. *)
Definition load_caught (e : exn) : bool :=
  match e with
  | FileNotFoundError | IndexError | ValueError | TypeError => true
  | _ => false
  end.

(** The result of the [except] branch of [load_deltafuel]. *)
Definition missing_fuel_data : curve * Q * Q := ([[99999; 0; 0]], 0, 0).

Section Worker.

Variable round6 : Q -> Q.
Variable distance : xyz -> xyz -> Q.
Variable delta_telemetry : Q -> Q -> curve -> bool -> Q.

(** [val.delta_list] of the validator module: whether the list was left as
    it is, and the list after the call, which corrects it in place. *)
Variable val_delta_list : curve -> result (bool * curve).

Definition load_except (fs : files) (e : exn)
  : result (files * (curve * Q * Q)) :=
  if load_caught e then Ok (fs, missing_fuel_data) else Raise e.

(** "Load last saved fuel consumption data": the files after the call and
    [(lastlist, used_last, laptime_last)]. *)
Definition load_deltafuel (fs : files) (combo : string)
  : result (files * (curve * Q * Q)) :=
  match open_read fs combo with
  | Raise e => load_except fs e
  | Ok NonNumeric => load_except fs ValueError
  | Ok (Numeric lastlist) =>
      match last_row_reads lastlist with
      | Raise e => load_except fs e
      | Ok (used, laptime) =>
          match val_delta_list lastlist with
          | Raise e => load_except fs e
          | Ok (true, lastlist') => Ok (fs, (lastlist', used, laptime))
          | Ok (false, lastlist') =>
              let fs' := save_deltafuel fs combo lastlist' in
              match last_row_reads lastlist' with
              | Raise e => load_except fs' e
              | Ok (used', laptime') => Ok (fs', (lastlist', used', laptime'))
              end
          end
      end
  end.

(** What one wake of the loop reads from the API. *)
Record env : Type := Env {
  api_state : bool;               (* api.state *)
  read_combo_id : string;         (* api.read.check.combo_id() *)
  read : telemetry
}.

(** The [Realtime] object with the variables of its update thread. *)
Record worker : Type := Worker {
  disk : files;
  active_interval : Q;
  idle_interval : Q;
  stopped : bool;                 (* self.stopped *)
  event : bool;                   (* self.event: set or clear *)
  in_active_list : bool;          (* self in cfg.active_module_list *)
  reset : bool;
  update_interval : Q;
  vars : option locals;           (* [None]: not yet bound *)
  minfo : option output           (* [None]: nothing published yet *)
}.

(** [start()]: a no-op unless the worker is stopped. *)
Definition start (w : worker) : worker :=
  if stopped w then
    {| disk := disk w;
       active_interval := active_interval w;
       idle_interval := idle_interval w;
       stopped := false;
       event := false;
       in_active_list := true;
       reset := false;
       update_interval := active_interval w;
       vars := None;
       minfo := minfo w |}
  else w.

(** [stop()]. *)
Definition stop (w : worker) : worker :=
  {| disk := disk w;
     active_interval := active_interval w;
     idle_interval := idle_interval w;
     stopped := stopped w;
     event := true;
     in_active_list := in_active_list w;
     reset := reset w;
     update_interval := update_interval w;
     vars := vars w;
     minfo := minfo w |}.

(** The variables of the [if not reset] block. *)
Definition init_locals (combo : string) (loaded : curve * Q * Q) : locals :=
  let '(lastlist, used, laptime) := loaded in
  {| recording := false;
     validating := false;
     delayed_save := false;
     pit_lap := false;
     combo_id := combo;
     delta_list_last := lastlist;
     used_last := used;
     laptime_last := laptime;
     delta_list_curr := [DELTA_ZERO];
     delta_list_temp := [DELTA_ZERO];
     delta_fuel := 0;
     amount_start := 0;
     amount_last := 0;
     amount_need := 0;
     used_curr := 0;
     used_last_raw := used;
     last_lap_stime := -1;
     laps_left := 0;
     pos_last := 0;
     pos_estimate := 0;
     gps_last := AsList (0, 0, 0) |}.

(** A variable of the reset block read before it was ever bound. *)
Definition bound (v : option locals) : result locals :=
  match v with
  | Some st => Ok st
  | None => Raise NameError
  end.

(** The body of the [while] loop: one timer wake with the event clear. *)
Definition loop_body (w : worker) (e : env) : result worker :=
  if api_state e then
    armed <- (if negb (reset w) then
                loaded <- load_deltafuel (disk w) (read_combo_id e) ;;
                Ok (fst loaded, init_locals (read_combo_id e) (snd loaded))
              else
                st <- bound (vars w) ;;
                Ok (disk w, st)) ;;
    r <- update_data round6 distance delta_telemetry (snd armed) (read e) ;;
    Ok {| disk := fst armed;
          active_interval := active_interval w;
          idle_interval := idle_interval w;
          stopped := stopped w;
          event := event w;
          in_active_list := in_active_list w;
          reset := true;
          update_interval :=
            if negb (reset w) then active_interval w else update_interval w;
          vars := Some (fst r);
          minfo := Some (snd r) |}
  else if reset w then
    st <- bound (vars w) ;;
    Ok {| disk := if delayed_save st
                  then save_deltafuel (disk w) (combo_id st)
                                      (delta_list_last st)
                  else disk w;
          active_interval := active_interval w;
          idle_interval := idle_interval w;
          stopped := stopped w;
          event := event w;
          in_active_list := in_active_list w;
          reset := false;
          update_interval := idle_interval w;
          vars := vars w;
          minfo := minfo w |}
  else Ok w.

(** What follows the loop, once [event.wait] returned true. *)
Definition loop_exit (w : worker) : worker :=
  {| disk := disk w;
     active_interval := active_interval w;
     idle_interval := idle_interval w;
     stopped := true;
     event := event w;
     in_active_list := false;
     reset := reset w;
     update_interval := update_interval w;
     vars := vars w;
     minfo := minfo w |}.

(** One wake of [self.event.wait(update_interval)] in the update thread:
    nothing when no thread runs, the exit when the event is set, the loop
    body otherwise. *)
Definition wake (w : worker) (e : env) : result worker :=
  if stopped w then Ok w
  else if event w then Ok (loop_exit w)
  else loop_body w e.

End Worker.

End Fuel.

(** ** Concrete stand-ins for the built-ins and the helper modules

    The definitions above take Python's [float] and [str], [round] and the
    [calc] helpers as parameters.  The examples instantiate them with the
    functions below, which agree with the built-ins on plain decimal
    literals. *)

Module Literal.

Definition digit (c : ascii) : option Z :=
  let n := nat_of_ascii c in
  if ((48 <=? n) && (n <=? 57))%nat then Some (Z.of_nat (n - 48)) else None.

(** Digits with at most one point: [num / den] so far, whether the point
    and whether any digit was seen. *)
Fixpoint scan (s : string) (num : Z) (den : positive) (point seen : bool)
  : option Q :=
  match s with
  | EmptyString => if seen then Some (num # den) else None
  | String c s' =>
      if Ascii.eqb c "." then
        if point then None else scan s' num den true seen
      else
        match digit c with
        | Some d =>
            scan s' (10 * num + d)%Z (if point then (10 * den)%positive else den)
                 point true
        | None => None
        end
  end.

(** [float(s)] on a decimal literal with an optional minus sign. *)
Definition py_float (s : string) : option Q :=
  match s with
  | String "-" s' => option_map Qopp (scan s' 0 1 false false)
  | _ => scan s 0 1 false false
  end.

(** Leading zeros dropped, but for the last character. *)
Fixpoint strip_zeros (rev_digits : string) : string :=
  match rev_digits with
  | String c s' =>
      match s' with
      | EmptyString => rev_digits
      | String _ _ => if Ascii.eqb c "0" then strip_zeros s' else rev_digits
      end
  | EmptyString => EmptyString
  end.

Fixpoint rev_string (s acc : string) : string :=
  match s with
  | EmptyString => acc
  | String c s' => rev_string s' (String c acc)
  end.

(** [str(x)] on a float with at most six decimals. *)
Definition py_str (q : Q) : string :=
  let n := Z.quot (Z.abs (Qnum q) * 1000000) (Zpos (Qden q)) in
  let int_part := NilZero.string_of_uint (N.to_uint (Z.to_N (n / 1000000))) in
  let padded := NilZero.string_of_uint (N.to_uint (Z.to_N (1000000 + n mod 1000000))) in
  let frac :=
    match padded with
    | String _ ds => rev_string (strip_zeros (rev_string ds EmptyString))
                                EmptyString
    | EmptyString => "0"%string
    end in
  ((if Qltb q 0 then "-" else "") ++ int_part ++ "." ++ frac)%string.

(** [round(x, 6)] on a float with at most six decimals. *)
Definition round6 (x : Q) : Q := x.

(** A [calc.distance] for movement along the first axis. *)
Definition distance (p q : Fuel.xyz) : Q :=
  let '(a, _, _) := p in
  let '(a', _, _) := q in
  Qabs (a' - a).

(** A [calc.delta_telemetry] for a reference lap that used no fuel. *)
Definition delta_telemetry (position usage : Q) (reference : Fuel.curve)
           (condition : bool) : Q :=
  if condition then usage else 0.

(** A [val.delta_list] that finds every list well formed. *)
Definition val_delta_list (l : Fuel.curve) : result (bool * Fuel.curve) :=
  Ok (true, l).

End Literal.

(** ** Sample states and readings for the examples *)

Module Sample.

(** A session with a best lap of 92.5 s, into the third sector of the next
    lap. *)
Definition sectors_st : Sectors.locals :=
  {| Sectors.last_sector_idx := 2;
     Sectors.combo_id := "combo";
     Sectors.session_id := [1; 600; 12];
     Sectors.laptime_best := 92.5;
     Sectors.best_s_tb := Sectors.Vec3 30.2 30.8 31.5;
     Sectors.best_s_pb := Sectors.Vec3 30.2 30.8 31.5;
     Sectors.delta_s_tb := Sectors.Vec3 0 0 0;
     Sectors.delta_s_pb := Sectors.Vec3 0 0 0;
     Sectors.prev_s := Sectors.Vec3 30 30.9 31.5;
     Sectors.no_delta_s := false |}.

(** The lap ends in 92.0 s, the second split having been 60.9 s. *)
Definition lap_faster : Sectors.telemetry :=
  {| Sectors.sector_idx := 0;
     Sectors.laptime_valid := 92;
     Sectors.curr_sector1 := 0;
     Sectors.curr_sector2 := 0;
     Sectors.last_sector2 := 60.9 |}.

(** A last lap time below the last second split. *)
Definition lap_inconsistent : Sectors.telemetry :=
  {| Sectors.sector_idx := 0;
     Sectors.laptime_valid := 10;
     Sectors.curr_sector1 := 0;
     Sectors.curr_sector2 := 0;
     Sectors.last_sector2 := 20 |}.

(** The same session, in its second sector. *)
Definition sectors_st_s2 : Sectors.locals :=
  {| Sectors.last_sector_idx := 1;
     Sectors.combo_id := "combo";
     Sectors.session_id := [1; 600; 12];
     Sectors.laptime_best := 92.5;
     Sectors.best_s_tb := Sectors.Vec3 30.2 30.8 31.5;
     Sectors.best_s_pb := Sectors.Vec3 30.2 30.8 31.5;
     Sectors.delta_s_tb := Sectors.Vec3 0 0 0;
     Sectors.delta_s_pb := Sectors.Vec3 0 0 0;
     Sectors.prev_s := Sectors.Vec3 30 30.9 31.5;
     Sectors.no_delta_s := false |}.

(** Both current splits read 30 s on entering the third sector. *)
Definition s2_equal_splits : Sectors.telemetry :=
  {| Sectors.sector_idx := 2;
     Sectors.laptime_valid := 92;
     Sectors.curr_sector1 := 30;
     Sectors.curr_sector2 := 30;
     Sectors.last_sector2 := 60.9 |}.

(** The record saved by a session of type 1, 500 s and 10 laps old. *)
Definition saved_record : string :=
  "combo|1|500|10|92.5|30.2|30.8|31.5|30.2|30.8|31.5".

Definition saved_cfg : Sectors.config :=
  {| Sectors.sector_info := saved_record;
     Sectors.sector_info_on_disk := saved_record |}.

(** A record whose best lap time is not a number. *)
Definition corrupt_cfg : Sectors.config :=
  {| Sectors.sector_info := "combo|1|500|10|fast|30.2|30.8|31.5|30.2|30.8|31.5";
     Sectors.sector_info_on_disk := "" |}.

(** A record cut after its fourth field. *)
Definition short_cfg : Sectors.config :=
  {| Sectors.sector_info := "combo|1|500|10";
     Sectors.sector_info_on_disk := "" |}.

(** A sector worker just started, with the given settings. *)
Definition sectors_started (c : Sectors.config) : Sectors.worker :=
  {| Sectors.cfg := c;
     Sectors.active_interval := 0.01;
     Sectors.idle_interval := 0.4;
     Sectors.stopped := false;
     Sectors.event := false;
     Sectors.in_active_list := true;
     Sectors.reset := false;
     Sectors.update_interval := 0.01;
     Sectors.vars := None;
     Sectors.minfo := None |}.

(** The first wake of a session of the same type, 600 s and 12 laps old. *)
Definition sectors_env : Sectors.env :=
  {| Sectors.api_state := true;
     Sectors.read_combo_id := "combo";
     Sectors.read_session_id := [1; 600; 12];
     Sectors.read := lap_faster |}.

(** A sector worker in the middle of a session, nothing saved yet. *)
Definition sectors_active : Sectors.worker :=
  {| Sectors.cfg := {| Sectors.sector_info := "";
                       Sectors.sector_info_on_disk := "" |};
     Sectors.active_interval := 0.01;
     Sectors.idle_interval := 0.4;
     Sectors.stopped := false;
     Sectors.event := false;
     Sectors.in_active_list := true;
     Sectors.reset := true;
     Sectors.update_interval := 0.01;
     Sectors.vars := Some sectors_st;
     Sectors.minfo := Some (Sectors.publish sectors_st) |}.

(** The wake at which the session is seen over. *)
Definition sectors_env_idle : Sectors.env :=
  {| Sectors.api_state := false;
     Sectors.read_combo_id := "combo";
     Sectors.read_session_id := [1; 600; 12];
     Sectors.read := lap_faster |}.

(** A validated lap of 92 s that used 2.5 l. *)
Definition lap_curve : Fuel.curve :=
  [[0; 0]; [2000; 1.2]; [4010; 2.5; 92]].

(** The fuel variables early in the lap after that one: the curve is the
    reference and waits to be saved. *)
Definition fuel_st : Fuel.locals :=
  {| Fuel.recording := true;
     Fuel.validating := false;
     Fuel.delayed_save := true;
     Fuel.pit_lap := false;
     Fuel.combo_id := "combo";
     Fuel.delta_list_last := lap_curve;
     Fuel.used_last := 2.5;
     Fuel.laptime_last := 92;
     Fuel.delta_list_curr := [[0; 0]; [100; 0.1]];
     Fuel.delta_list_temp := [[0; 0]];
     Fuel.delta_fuel := 0;
     Fuel.amount_start := 50;
     Fuel.amount_last := 40;
     Fuel.amount_need := 0;
     Fuel.used_curr := 0.1;
     Fuel.used_last_raw := 2.5;
     Fuel.last_lap_stime := 200;
     Fuel.laps_left := 8;
     Fuel.pos_last := 100;
     Fuel.pos_estimate := 100;
     Fuel.gps_last := Fuel.AsTuple (100, 0, 0) |}.

(** A fuel worker in the middle of a session, no file written yet. *)
Definition fuel_active : Fuel.worker :=
  {| Fuel.disk := [];
     Fuel.active_interval := 0.01;
     Fuel.idle_interval := 0.4;
     Fuel.stopped := false;
     Fuel.event := false;
     Fuel.in_active_list := true;
     Fuel.reset := true;
     Fuel.update_interval := 0.01;
     Fuel.vars := Some fuel_st;
     Fuel.minfo := None |}.

(** A reading in a race of 12 laps, 3 of them completed. *)
Definition fuel_reading (stime fuel : Q) (pits : bool) : Fuel.telemetry :=
  {| Fuel.lap_stime := stime;
     Fuel.current_laptime := 10;
     Fuel.laptime_valid := 92;
     Fuel.time_left := 1000;
     Fuel.amount_curr := fuel;
     Fuel.tank_capacity := 100;
     Fuel.in_garage := false;
     Fuel.lap_distance := 400;
     Fuel.gps_curr := (400, 0, 0);
     Fuel.lap_number := 3;
     Fuel.lap_into := 0.1;
     Fuel.laps_max := 12;
     Fuel.in_pits := pits;
     Fuel.lap_type := true |}.

(** The wake at which the session is seen over. *)
Definition fuel_env_idle : Fuel.env :=
  {| Fuel.api_state := false;
     Fuel.read_combo_id := "combo";
     Fuel.read := fuel_reading 200 40 false |}.

(** The fuel variables with a last lap that used 2 l, one litre in the
    tank. *)
Definition fuel_st_low : Fuel.locals :=
  {| Fuel.recording := true;
     Fuel.validating := false;
     Fuel.delayed_save := false;
     Fuel.pit_lap := false;
     Fuel.combo_id := "combo";
     Fuel.delta_list_last := lap_curve;
     Fuel.used_last := 2;
     Fuel.laptime_last := 92;
     Fuel.delta_list_curr := [[0; 0]];
     Fuel.delta_list_temp := [[0; 0]];
     Fuel.delta_fuel := 0;
     Fuel.amount_start := 1;
     Fuel.amount_last := 1;
     Fuel.amount_need := 0;
     Fuel.used_curr := 0;
     Fuel.used_last_raw := 2;
     Fuel.last_lap_stime := 200;
     Fuel.laps_left := 8;
     Fuel.pos_last := 0;
     Fuel.pos_estimate := 0;
     Fuel.gps_last := Fuel.AsTuple (0, 0, 0) |}.

(** A reading with one litre of fuel and a tank capacity of 0, standing at
    the line. *)
Definition fuel_reading_no_tank : Fuel.telemetry :=
  {| Fuel.lap_stime := 200;
     Fuel.current_laptime := 10;
     Fuel.laptime_valid := 92;
     Fuel.time_left := 1000;
     Fuel.amount_curr := 1;
     Fuel.tank_capacity := 0;
     Fuel.in_garage := false;
     Fuel.lap_distance := 0;
     Fuel.gps_curr := (0, 0, 0);
     Fuel.lap_number := 3;
     Fuel.lap_into := 0.1;
     Fuel.laps_max := 12;
     Fuel.in_pits := false;
     Fuel.lap_type := true |}.

(** The reading [t] with a reported tank capacity of [c]. *)
Definition with_tank (t : Fuel.telemetry) (c : Q) : Fuel.telemetry :=
  {| Fuel.lap_stime := Fuel.lap_stime t;
     Fuel.current_laptime := Fuel.current_laptime t;
     Fuel.laptime_valid := Fuel.laptime_valid t;
     Fuel.time_left := Fuel.time_left t;
     Fuel.amount_curr := Fuel.amount_curr t;
     Fuel.tank_capacity := c;
     Fuel.in_garage := Fuel.in_garage t;
     Fuel.lap_distance := Fuel.lap_distance t;
     Fuel.gps_curr := Fuel.gps_curr t;
     Fuel.lap_number := Fuel.lap_number t;
     Fuel.lap_into := Fuel.lap_into t;
     Fuel.laps_max := Fuel.laps_max t;
     Fuel.in_pits := Fuel.in_pits t;
     Fuel.lap_type := Fuel.lap_type t |}.

(** The settings before any record was saved. *)
Definition empty_cfg : Sectors.config :=
  {| Sectors.sector_info := ""; Sectors.sector_info_on_disk := "" |}.

(** A validator that takes the second row of a long list for a stray
    sample and drops it. *)
Definition val_dropping (l : Fuel.curve) : result (bool * Fuel.curve) :=
  match l with
  | r0 :: r1 :: r2 :: r3 :: rest => Ok (false, r0 :: r2 :: r3 :: rest)
  | _ => Ok (true, l)
  end.

(** A file with a stray sample at the start of the lap. *)
Definition stray_files : Fuel.files :=
  [("combo"%string,
    Fuel.Numeric [[0; 0]; [3900; 0.1]; [2000; 1.2]; [4010; 2.5; 92]])].

(** The reading [t] taken [lc] seconds into the lap. *)
Definition with_laptime (t : Fuel.telemetry) (lc : Q) : Fuel.telemetry :=
  {| Fuel.lap_stime := Fuel.lap_stime t;
     Fuel.current_laptime := lc;
     Fuel.laptime_valid := Fuel.laptime_valid t;
     Fuel.time_left := Fuel.time_left t;
     Fuel.amount_curr := Fuel.amount_curr t;
     Fuel.tank_capacity := Fuel.tank_capacity t;
     Fuel.in_garage := Fuel.in_garage t;
     Fuel.lap_distance := Fuel.lap_distance t;
     Fuel.gps_curr := Fuel.gps_curr t;
     Fuel.lap_number := Fuel.lap_number t;
     Fuel.lap_into := Fuel.lap_into t;
     Fuel.laps_max := Fuel.laps_max t;
     Fuel.in_pits := Fuel.in_pits t;
     Fuel.lap_type := Fuel.lap_type t |}.

(** The fuel variables right after a lap boundary: the curve of the lap
    waits for validation, the reference is still the default. *)
Definition fuel_st_pending : Fuel.locals :=
  {| Fuel.recording := true;
     Fuel.validating := true;
     Fuel.delayed_save := false;
     Fuel.pit_lap := false;
     Fuel.combo_id := "combo";
     Fuel.delta_list_last := [[99999; 0; 0]];
     Fuel.used_last := 0;
     Fuel.laptime_last := 0;
     Fuel.delta_list_curr := [[0; 0]];
     Fuel.delta_list_temp := lap_curve;
     Fuel.delta_fuel := 0;
     Fuel.amount_start := 50;
     Fuel.amount_last := 40;
     Fuel.amount_need := 0;
     Fuel.used_curr := 0;
     Fuel.used_last_raw := 2.5;
     Fuel.last_lap_stime := 292;
     Fuel.laps_left := 8;
     Fuel.pos_last := 0;
     Fuel.pos_estimate := 0;
     Fuel.gps_last := Fuel.AsTuple (0, 0, 0) |}.

(** The three readings of a lap of 92.5 s: 30.2 s at the end of the first
    sector, 61.0 s at the end of the second. *)
Definition reading_s1 : Sectors.telemetry :=
  {| Sectors.sector_idx := 1;
     Sectors.laptime_valid := 93;
     Sectors.curr_sector1 := 30.2;
     Sectors.curr_sector2 := 0;
     Sectors.last_sector2 := 61.4 |}.

Definition reading_s2 : Sectors.telemetry :=
  {| Sectors.sector_idx := 2;
     Sectors.laptime_valid := 93;
     Sectors.curr_sector1 := 30.2;
     Sectors.curr_sector2 := 61;
     Sectors.last_sector2 := 61.4 |}.

Definition reading_s3 : Sectors.telemetry :=
  {| Sectors.sector_idx := 0;
     Sectors.laptime_valid := 92.5;
     Sectors.curr_sector1 := 0;
     Sectors.curr_sector2 := 0;
     Sectors.last_sector2 := 61 |}.

(** A reading [lc] seconds into the lap that began at [stime], [pos]
    metres from the line, with 40 l of fuel. *)
Definition lap_reading (stime lc pos : Q) (pits : bool) : Fuel.telemetry :=
  {| Fuel.lap_stime := stime;
     Fuel.current_laptime := lc;
     Fuel.laptime_valid := 92;
     Fuel.time_left := 1000;
     Fuel.amount_curr := 40;
     Fuel.tank_capacity := 100;
     Fuel.in_garage := false;
     Fuel.lap_distance := pos;
     Fuel.gps_curr := (pos, 0, 0);
     Fuel.lap_number := 3;
     Fuel.lap_into := 0.1;
     Fuel.laps_max := 12;
     Fuel.in_pits := pits;
     Fuel.lap_type := true |}.

End Sample.

(** ** Vocabulary of the statements *)

(** No iteration of [ts] is a lap boundary, [last] being the lap start time
    seen before the first of them. *)
Fixpoint no_lap_boundary (last : Q) (ts : list Fuel.telemetry) : bool :=
  match ts with
  | [] => true
  | t :: ts' =>
      negb (Fuel.new_lap (Fuel.lap_stime t) last)
      && no_lap_boundary (Fuel.lap_stime t) ts'
  end.

(** Within each lap the fuel readings never decrease: a reading is not
    below the one before it, [prev] for the first, unless its iteration is
    a lap boundary, [stime] being the lap start time seen before. *)
Fixpoint non_decreasing_in_laps (stime prev : Q) (ts : list Fuel.telemetry)
  : Prop :=
  match ts with
  | [] => True
  | t :: ts' =>
      (Fuel.new_lap (Fuel.lap_stime t) stime = true
       \/ prev <= Fuel.amount_curr t)
      /\ non_decreasing_in_laps (Fuel.lap_stime t) (Fuel.amount_curr t) ts'
  end.

(** A valid sector time, in the words of the spec. *)
Definition valid_time (x : Q) : Prop := 0 < x /\ x < 99999.

(** In no sector is the theoretical best above the personal best or above
    the previous time. *)
Definition best_ordered (st : Sectors.locals) : Prop :=
  forall i : nat,
    Sectors.get (Sectors.best_s_tb st) i <= Sectors.get (Sectors.best_s_pb st) i
    /\ Sectors.get (Sectors.best_s_tb st) i <= Sectors.get (Sectors.prev_s st) i.

(** The iteration records a time for sector [i + 1]: the sector index
    changed and the branch that updates slot [i] has its guard. *)
Definition sector_recorded (st : Sectors.locals) (t : Sectors.telemetry)
           (i : nat) : bool :=
  negb (Sectors.last_sector_idx st =? Sectors.sector_idx t)%Z
  && match i with
     | O => Sectors.in_s2 t
     | S O => Sectors.in_s3 t
     | _ => Sectors.in_s1 t
     end.

(** A field without the separator. *)
Fixpoint no_pipe (s : string) : bool :=
  match s with
  | EmptyString => true
  | String c s' => negb (Ascii.eqb c "|") && no_pipe s'
  end.


(** A curve as a lap boundary closes it: at least three rows, the last of
    three entries (position, usage, lap time). *)
Definition closed_shape (l : Fuel.curve) : Prop :=
  (2 < List.length l)%nat
  /\ exists body a b c, l = body ++ [[a; b; c]].

(** Whatever waits for validation or for the save is a closed curve. *)
Definition pending_closed (st : Fuel.locals) : Prop :=
  (Fuel.validating st = true -> closed_shape (Fuel.delta_list_temp st))
  /\ (Fuel.delayed_save st = true -> closed_shape (Fuel.delta_list_last st)).

(** The variables of the reset block are bound whenever [reset] is set. *)
Definition sectors_bound (w : Sectors.worker) : Prop :=
  Sectors.reset w = true -> exists st, Sectors.vars w = Some st.

Definition fuel_bound (w : Fuel.worker) : Prop :=
  Fuel.reset w = true -> exists st, Fuel.vars w = Some st.

(** *** Facts on the numeric tests *)

Lemma Qltb_lt (x y : Q) : Qltb x y = true <-> x < y.
Proof.
  unfold Qltb. rewrite negb_true_iff. split.
  - intros H. apply Qnot_le_lt. intros Hle.
    apply Qle_bool_iff in Hle. congruence.
  - intros H. destruct (Qle_bool y x) eqn:E; [|reflexivity].
    apply Qle_bool_iff in E. exfalso. apply (Qlt_not_le _ _ H E).
Qed.

Lemma Qltb_ge (x y : Q) : Qltb x y = false <-> y <= x.
Proof.
  unfold Qltb. rewrite negb_false_iff. apply Qle_bool_iff.
Qed.

Lemma Qeqb_eq (x y : Q) : Qeq_bool x y = true <-> x == y.
Proof. apply Qeq_bool_iff. Qed.

Lemma Qeqb_neq (x y : Q) : Qeq_bool x y = false <-> ~ x == y.
Proof.
  split.
  - intros H E. apply Qeq_bool_iff in E. congruence.
  - intros H. destruct (Qeq_bool x y) eqn:E; [|reflexivity].
    apply Qeq_bool_iff in E. contradiction.
Qed.

Lemma max_lower (a b : Q) : b <= Py.max a b.
Proof.
  unfold Py.max. destruct (Qltb a b) eqn:E.
  - apply Qle_refl.
  - now apply Qltb_ge.
Qed.

(** Case analysis on a numeric test, leaving its meaning in the context. *)
Ltac qtest t :=
  let E := fresh "E" in
  destruct t eqn:E;
  [ first [ apply Qltb_lt in E | apply Qle_bool_iff in E | apply Qeqb_eq in E ]
  | first [ apply Qltb_ge in E | apply Qeqb_neq in E
          | idtac ] ].

Lemma sector_time_valid (x : Q) :
  Sectors.sector_time x = true <-> valid_time x.
Proof.
  unfold Sectors.sector_time, valid_time, Sectors.MAGIC_NUM.
  rewrite andb_true_iff, !Qltb_lt. reflexivity.
Qed.

Lemma sector_time_all_valid (v : Sectors.vec3) :
  Sectors.sector_time_all v = true <->
  valid_time (Sectors.v0 v) /\ valid_time (Sectors.v1 v)
  /\ valid_time (Sectors.v2 v).
Proof.
  unfold Sectors.sector_time_all.
  rewrite !andb_true_iff, !sector_time_valid. tauto.
Qed.

(** A time below a valid time is valid as soon as it is positive. *)
Lemma lower_time_valid (x best : Q) :
  Sectors.sector_time best = true -> x < best -> 0 < x ->
  Sectors.sector_time x = true.
Proof.
  rewrite !sector_time_valid. unfold valid_time.
  intros [_ Hb] Hlt Hpos. split; [assumption|].
  apply Qlt_trans with best; assumption.
Qed.

(** ** The sector estimator *)

Section SectorTick.

Import Sectors.

(** What one iteration does to the two best arrays and the best lap time,
    branch by branch. *)
Lemma update_data_cases (st : locals) (t : telemetry) :
  update_data st t = st
  \/ update_data st t = update_s3 st t /\ in_s1 t = true
     /\ (last_sector_idx st =? sector_idx t)%Z = false
  \/ update_data st t = update_s1 st t /\ in_s2 t = true
  \/ update_data st t = update_s2 st t /\ in_s3 t = true.
Proof.
  unfold update_data.
  destruct (last_sector_idx st =? sector_idx t)%Z; cbn [negb]; auto.
  destruct (in_s1 t); auto.
  destruct (in_s2 t); auto.
  destruct (in_s3 t); auto.
Qed.

Lemma personal_best_kept_or_valid (st : locals) (t : telemetry) :
  best_s_pb (update_data st t) = best_s_pb st
  \/ (best_s_pb (update_data st t) = prev_s (update_data st t)
      /\ sector_time_all (best_s_pb (update_data st t)) = true).
Proof.
  destruct (update_data_cases st t) as [E | [[E _] | [[E _] | [E _]]]];
    rewrite E; auto.
  unfold update_s3; cbn [best_s_pb prev_s].
  destruct (Qltb (laptime_valid t) (laptime_best st)); cbn [andb]; auto.
  destruct (sector_time_all _) eqn:V; auto.
Qed.

(** C1, as amended: a theoretical-best slot holding a valid time is, after
    an iteration, either unchanged or lowered to the sector time computed on
    that iteration, which is a valid time as soon as it is positive, and
    always so for sector 1; the personal-best array is either unchanged or
    replaced by three valid times. *)
Theorem best_slot_kept_or_lowered
        (st : locals) (t : telemetry) (i : nat) :
  sector_time (get (best_s_tb st) i) = true ->
  let st' := update_data st t in
  (get (best_s_tb st') i = get (best_s_tb st) i
   \/ (get (best_s_tb st') i = get (prev_s st') i
       /\ get (best_s_tb st') i < get (best_s_tb st) i
       /\ (0 < get (prev_s st') i ->
           sector_time (get (best_s_tb st') i) = true)))
  /\ (i = 0%nat -> sector_time (get (best_s_tb st') i) = true)
  /\ (best_s_pb st' = best_s_pb st
      \/ (best_s_pb st' = prev_s st'
          /\ sector_time_all (best_s_pb st') = true)).
Proof.
  intros V st'. subst st'.
  split; [|split]; [| |apply personal_best_kept_or_valid].
  - destruct (update_data_cases st t) as [E | [[E _] | [[E _] | [E _]]]];
      rewrite E; auto.
    + unfold update_s3; cbn [best_s_tb prev_s].
      qtest (Qltb (v2 (set2 (prev_s st) (laptime_valid t - last_sector2 t)))
                  (v2 (best_s_tb st))); auto.
      destruct i as [|[|i]]; cbn in *; auto.
      right. repeat split; auto.
      intros P. apply lower_time_valid with (v2 (best_s_tb st)); auto.
    + unfold update_s1; cbn [best_s_tb prev_s].
      qtest (Qltb (v0 (set0 (prev_s st) (curr_sector1 t)))
                  (v0 (best_s_tb st))); auto.
      destruct i as [|[|i]]; cbn in *; auto.
      right. repeat split; auto.
      intros P. apply lower_time_valid with (v0 (best_s_tb st)); auto.
    + unfold update_s2; cbn [best_s_tb prev_s].
      qtest (Qltb (v1 (set1 (prev_s st) (curr_sector2 t - curr_sector1 t)))
                  (v1 (best_s_tb st))); auto.
      destruct i as [|[|i]]; cbn in *; auto.
      right. repeat split; auto.
      intros P. apply lower_time_valid with (v1 (best_s_tb st)); auto.
  - intros ->. cbn [get] in *.
    destruct (update_data_cases st t) as [E | [[E _] | [[E G] | [E _]]]];
      rewrite E; auto.
    + unfold update_s3; cbn [best_s_tb].
      destruct (Qltb _ _); auto.
    + unfold update_s1; cbn [best_s_tb].
      qtest (Qltb (v0 (set0 (prev_s st) (curr_sector1 t)))
                  (v0 (best_s_tb st))); auto.
      cbn in *. unfold in_s2 in G. apply andb_true_iff in G as [_ G].
      apply Qltb_lt in G.
      apply lower_time_valid with (v0 (best_s_tb st)); auto.
    + unfold update_s2; cbn [best_s_tb].
      destruct (Qltb _ _); auto.
Qed.

Lemma best_slot_kept_or_lowered_witness :
  sector_time (get (best_s_tb Sample.sectors_st) 2) = true
  /\ (get (best_s_tb (update_data Sample.sectors_st Sample.lap_faster)) 2
      = get (best_s_tb Sample.sectors_st) 2
      \/ get (best_s_tb (update_data Sample.sectors_st Sample.lap_faster)) 2
         < get (best_s_tb Sample.sectors_st) 2).
Proof.
  split; [reflexivity|].
  destruct (best_slot_kept_or_lowered Sample.sectors_st Sample.lap_faster 2)
    as [[H | [_ [H _]]] _]; [reflexivity | left; exact H | right; exact H].
Defined.

(** C1, as stated, fails: a last lap time of 10 s with a last second split of
    20 s passes the guards of the first branch, and the computed third
    sector of -10 s replaces the valid theoretical best of 31.5 s; equal
    current splits of 30 s put 0 s in place of the valid 30.8 s. *)
Lemma best_slot_overwritten_by_invalid :
  sector_time (get (best_s_tb Sample.sectors_st) 2) = true
  /\ get (best_s_tb (update_data Sample.sectors_st Sample.lap_inconsistent)) 2
     == -10
  /\ sector_time
       (get (best_s_tb (update_data Sample.sectors_st Sample.lap_inconsistent))
            2) = false
  /\ sector_time (get (best_s_tb Sample.sectors_st_s2) 1) = true
  /\ get (best_s_tb (update_data Sample.sectors_st_s2 Sample.s2_equal_splits)) 1
     == 0
  /\ sector_time
       (get (best_s_tb (update_data Sample.sectors_st_s2
                                    Sample.s2_equal_splits)) 1) = false.
Proof. repeat split. Qed.

(** C6: the personal-best array and the best lap time change on exactly one
    kind of iteration, the one that sees a lap completed (sector index
    changed to 0, positive last lap time and last second split) in a time
    below the best lap time and with three valid splits; they then become
    those three splits and that lap time, and are unchanged otherwise. *)
Theorem personal_best_replaced_wholesale (st : locals) (t : telemetry) :
  let st' := update_data st t in
  let splits :=
    Vec3 (v0 (prev_s st)) (v1 (prev_s st))
         (laptime_valid t - last_sector2 t) in
  let completed :=
    last_sector_idx st <> sector_idx t /\ sector_idx t = 0%Z
    /\ 0 < laptime_valid t /\ 0 < last_sector2 t in
  let faster := laptime_valid t < laptime_best st in
  let all_valid :=
    valid_time (v0 splits) /\ valid_time (v1 splits)
    /\ valid_time (v2 splits) in
  (completed /\ faster /\ all_valid ->
   best_s_pb st' = splits /\ laptime_best st' = laptime_valid t)
  /\ (~ (completed /\ faster /\ all_valid) ->
      best_s_pb st' = best_s_pb st /\ laptime_best st' = laptime_best st).
Proof.
  cbv zeta. unfold update_data.
  destruct (Z.eqb_spec (last_sector_idx st) (sector_idx t)) as [Hi | Hi];
    cbn [negb].
  { split; [intros [[C _] _]; contradiction | auto]. }
  unfold in_s1, in_s2, in_s3.
  destruct (Z.eqb_spec (sector_idx t) 0) as [H0 | H0]; cbn [andb].
  - qtest (Qltb 0 (laptime_valid t)); cbn [andb].
    + qtest (Qltb 0 (last_sector2 t)).
      * unfold update_s3; cbn [best_s_pb laptime_best].
        qtest (Qltb (laptime_valid t) (laptime_best st)); cbn [andb].
        -- destruct (sector_time_all
                       (set2 (prev_s st) (laptime_valid t - last_sector2 t)))
             eqn:V.
           ++ split; auto.
              intros N. exfalso. apply N.
              apply sector_time_all_valid in V. cbn in V. cbn. tauto.
           ++ split; auto.
              intros [_ [_ A]]. exfalso.
              assert (sector_time_all
                        (set2 (prev_s st) (laptime_valid t - last_sector2 t))
                      = true) as V'
                  by (apply sector_time_all_valid; cbn; cbn in A; tauto).
              congruence.
        -- split; auto.
           intros [_ [F _]]. exfalso. apply (Qlt_not_le _ _ F). assumption.
      * rewrite H0.
        cbn. split; auto.
        intros [[_ [_ [_ C]]] _]. exfalso.
        apply (Qlt_not_le _ _ C). assumption.
    + rewrite H0. cbn. split; auto.
      intros [[_ [_ [C _]]] _]. exfalso.
      apply (Qlt_not_le _ _ C). assumption.
  - assert (forall P : Prop,
               (last_sector_idx st <> sector_idx t /\ sector_idx t = 0%Z /\ P)
               -> False) as N by (intros P [_ [C _]]; contradiction).
    split.
    + intros [C _]. exfalso. apply (N _ C).
    + intros _.
      destruct ((sector_idx t =? 1)%Z && Qltb 0 (curr_sector1 t)); auto.
      destruct ((sector_idx t =? 2)%Z && Qltb 0 (curr_sector2 t)
                && Qltb 0 (curr_sector1 t)); auto.
Qed.

(** The lap of 92.0 s with splits 30, 30.9 and 31.1 replaces the personal
    best of 92.5 s as a whole. *)
Example personal_best_replaced_example :
  best_s_pb (update_data Sample.sectors_st Sample.lap_faster)
  = Vec3 30 30.9 (92 - 60.9)
  /\ laptime_best (update_data Sample.sectors_st Sample.lap_faster) = 92.
Proof. split; reflexivity. Qed.

End SectorTick.

(** ** The sector record *)

Section SectorRecord.

Import Sectors.

Variable py_float : string -> option Q.

Lemma map_raise_ok (fields : list string) (values : list Q) :
  map py_float fields = map Some values ->
  Py.map_raise (float_of py_float) fields = Ok values.
Proof.
  revert values. induction fields as [|f fields IH]; intros [|v values] H;
    try discriminate; [reflexivity|].
  cbn in H. injection H as Hf Hr.
  cbn. unfold float_of at 1. rewrite Hf. cbn.
  rewrite (IH _ Hr). reflexivity.
Qed.

Lemma map_raise_bad (fields : list string) :
  (exists f, In f fields /\ py_float f = None) ->
  Py.map_raise (float_of py_float) fields = Raise ValueError.
Proof.
  induction fields as [|f fields IH]; intros [g [Hin Hg]]; [contradiction|].
  cbn. unfold float_of at 1.
  destruct (py_float f) eqn:Ef; [|reflexivity].
  cbn. rewrite IH; [reflexivity|].
  exists g. split; [|assumption].
  destruct Hin as [-> | Hin]; [congruence | assumption].
Qed.

(** A field after the first that is not a number: [float] raises in
    [convert_value], before the [try] of [parse_save_string]. *)
Lemma parse_raises_on_bad_number (save_data : string) :
  (exists f, In f (tl (pipe_split save_data)) /\ py_float f = None) ->
  parse_save_string py_float save_data = Raise ValueError.
Proof.
  intros H. unfold parse_save_string, convert_value.
  destruct (pipe_split save_data) as [|s0 fields] eqn:E.
  - destruct H as [f [[] _]].
  - cbn [Py.index nth_error Py.bind tl]. cbn [tl] in H.
    rewrite (map_raise_bad _ H). reflexivity.
Qed.

(** Fewer than eleven fields, all numbers: the [IndexError] is caught and
    the record is [["None"]]. *)
Lemma parse_short_record (save_data s0 : string) (fields : list string)
      (values : list Q) :
  pipe_split save_data = s0 :: fields ->
  map py_float fields = map Some values ->
  (List.length values < 10)%nat ->
  parse_save_string py_float save_data = Ok SavedNone.
Proof.
  intros E M L. unfold parse_save_string, convert_value. rewrite E.
  cbn [Py.index nth_error Py.bind tl].
  rewrite (map_raise_ok _ _ M). cbn [Py.bind].
  unfold data_num. cbn [snd fst].
  do 10 (destruct values as [|? values];
         [reflexivity | cbn [List.length] in L]).
  cbn in L. lia.
Qed.

(** The record [["None"]] gives the sentinel defaults, unless the combo is
    itself called "None". *)
Lemma load_short_record (cfg : config) (combo s0 : string)
      (session : list Q) (fields : list string) (values : list Q) :
  pipe_split (sector_info cfg) = s0 :: fields ->
  map py_float fields = map Some values ->
  (List.length values < 10)%nat ->
  combo <> "None"%string ->
  load_sector_data py_float cfg combo session = Ok no_sector_data.
Proof.
  intros E M L N. unfold load_sector_data.
  rewrite (parse_short_record _ _ _ _ E M L). cbn [Py.bind].
  unfold same_session. cbn [saved_0].
  destruct (String.eqb_spec combo "None"); [contradiction | reflexivity].
Qed.

(** C3, as amended: a well-formed record is accepted if and only if its
    combination id is the current one, its session type equals the current
    session type, and its elapsed time and total laps are not above the
    current ones; any other record yields the sentinel defaults. *)
Theorem load_accepts_same_type_not_later
        (cfg : config) (combo s_combo : string) (fields : list string)
        (ctype celapsed claps : Q)
        (stype elapsed laps best t0 t1 t2 p0 p1 p2 : Q) :
  pipe_split (sector_info cfg) = s_combo :: fields ->
  map py_float fields
  = map Some [stype; elapsed; laps; best; t0; t1; t2; p0; p1; p2] ->
  let accepted :=
    combo = s_combo /\ stype == ctype /\ elapsed <= celapsed
    /\ laps <= claps in
  (accepted ->
   load_sector_data py_float cfg combo [ctype; celapsed; claps]
   = Ok (best, Vec3 t0 t1 t2, Vec3 p0 p1 p2))
  /\ (~ accepted ->
      load_sector_data py_float cfg combo [ctype; celapsed; claps]
      = Ok no_sector_data).
Proof.
  intros E M accepted. subst accepted.
  unfold load_sector_data, parse_save_string, convert_value. rewrite E.
  cbn [Py.index nth_error Py.bind tl].
  rewrite (map_raise_ok _ _ M).
  unfold same_session.
  cbn -[Qeq_bool Qle_bool String.eqb].
  destruct (String.eqb_spec combo s_combo) as [Hc | Hc];
    cbn -[Qeq_bool Qle_bool].
  - qtest (Qeq_bool stype ctype); cbn -[Qeq_bool Qle_bool].
    + qtest (Qle_bool elapsed celapsed); cbn -[Qeq_bool Qle_bool].
      * destruct (Qle_bool laps claps) eqn:E2.
        -- apply Qle_bool_iff in E2. cbn. split; [reflexivity | tauto].
        -- cbn. split; [|reflexivity].
           intros [_ [_ [_ C]]]. apply Qle_bool_iff in C. congruence.
      * cbn. split; [|reflexivity].
        intros [_ [_ [C _]]]. apply Qle_bool_iff in C. congruence.
    + cbn. split; [|reflexivity]. intros [_ [C _]]. contradiction.
  - cbn. split; [|reflexivity]. intros [C _]. contradiction.
Qed.

End SectorRecord.

Lemma load_accepts_same_type_not_later_witness :
  Sectors.load_sector_data Literal.py_float Sample.saved_cfg "combo"
                           [1; 600; 12]
  = Ok (92.5, Sectors.Vec3 30.2 30.8 31.5, Sectors.Vec3 30.2 30.8 31.5)
  /\ Sectors.load_sector_data Literal.py_float Sample.saved_cfg "combo"
                              [1; 400; 10]
     = Ok Sectors.no_sector_data.
Proof.
  split.
  - apply (load_accepts_same_type_not_later
             Literal.py_float Sample.saved_cfg "combo" "combo"
             ["1"; "500"; "10"; "92.5"; "30.2"; "30.8"; "31.5";
              "30.2"; "30.8"; "31.5"]%string
             1 600 12 1 500 10 92.5 30.2 30.8 31.5 30.2 30.8 31.5);
      [reflexivity | reflexivity |].
    repeat split; discriminate.
  - apply (load_accepts_same_type_not_later
             Literal.py_float Sample.saved_cfg "combo" "combo"
             ["1"; "500"; "10"; "92.5"; "30.2"; "30.8"; "31.5";
              "30.2"; "30.8"; "31.5"]%string
             1 400 10 1 500 10 92.5 30.2 30.8 31.5 30.2 30.8 31.5);
      [reflexivity | reflexivity |].
    intros [_ [_ [C _]]]. apply C. reflexivity.
Defined.

(** C3, as stated, fails: the record of a session of type 1, 500 s and 10
    laps old is below the session of type 2, 600 s and 12 laps old in each
    component, and is rejected. *)
Lemma load_rejects_lower_session_type :
  1 <= 2 /\ 500 <= 600 /\ 10 <= 12
  /\ Sectors.load_sector_data Literal.py_float Sample.saved_cfg "combo"
                              [2; 600; 12]
     = Ok Sectors.no_sector_data.
Proof. repeat split; discriminate. Qed.

(** C8 on the code: a record with a field that is not a number makes
    [load_sector_data] raise [ValueError], and with it the first wake of the
    update thread; a record that is only too short gives the defaults. *)
Theorem corrupt_record_raises :
  Sectors.parse_save_string Literal.py_float
                            (Sectors.sector_info Sample.corrupt_cfg)
  = Raise ValueError
  /\ Sectors.load_sector_data Literal.py_float Sample.corrupt_cfg "combo"
                              [1; 600; 12]
     = Raise ValueError
  /\ Sectors.wake Literal.py_float Literal.py_str
                  (Sample.sectors_started Sample.corrupt_cfg)
                  Sample.sectors_env
     = Raise ValueError
  /\ Sectors.load_sector_data Literal.py_float Sample.short_cfg "combo"
                              [1; 600; 12]
     = Ok Sectors.no_sector_data.
Proof. repeat split. Qed.

(** ** The two workers: stop and flush *)

Section Workers.

Variable py_float : string -> option Q.
Variable py_str : Q -> string.
Variable round6 : Q -> Q.
Variable distance : Fuel.xyz -> Fuel.xyz -> Q.
Variable delta_telemetry : Q -> Q -> Fuel.curve -> bool -> Q.
Variable val_delta_list : Fuel.curve -> result (bool * Fuel.curve).

#[local] Abbreviation sectors_wake := (Sectors.wake py_float py_str).
#[local] Abbreviation fuel_wake :=
  (Fuel.wake round6 distance delta_telemetry val_delta_list).

(** The only flush of the sector worker: the wake that sees the session over
    after having seen it active. *)
Lemma sectors_flush_on_idle (w : Sectors.worker) (e : Sectors.env)
      (st : Sectors.locals) :
  Sectors.stopped w = false -> Sectors.event w = false ->
  Sectors.api_state e = false -> Sectors.reset w = true ->
  Sectors.vars w = Some st ->
  exists w',
    sectors_wake w e = Ok w'
    /\ Sectors.cfg w'
       = Sectors.save_sector_data py_str (Sectors.cfg w)
           (Sectors.combo_id st) (Sectors.session_id st)
           (Sectors.best_s_pb st) (Sectors.laptime_best st)
           (Sectors.best_s_tb st)
    /\ Sectors.stopped w' = false /\ Sectors.reset w' = false.
Proof.
  intros Hs He Ha Hr Hv.
  unfold Sectors.wake, Sectors.loop_body. rewrite Hs, He, Ha, Hr, Hv.
  cbn. eexists. repeat split.
Qed.

(** The only flush of the fuel worker. *)
Lemma fuel_flush_on_idle (w : Fuel.worker) (e : Fuel.env) (st : Fuel.locals) :
  Fuel.stopped w = false -> Fuel.event w = false ->
  Fuel.api_state e = false -> Fuel.reset w = true ->
  Fuel.vars w = Some st ->
  exists w',
    fuel_wake w e = Ok w'
    /\ Fuel.disk w'
       = (if Fuel.delayed_save st
          then Fuel.save_deltafuel (Fuel.disk w) (Fuel.combo_id st)
                                   (Fuel.delta_list_last st)
          else Fuel.disk w)
    /\ Fuel.stopped w' = false /\ Fuel.reset w' = false.
Proof.
  intros Hs He Ha Hr Hv.
  unfold Fuel.wake, Fuel.loop_body. rewrite Hs, He, Ha, Hr, Hv.
  cbn. eexists. repeat split.
Qed.

(** C5, as amended: after [stop()] the next wake of a running worker leaves
    the loop and marks the worker stopped, whatever the API reads, and
    writes nothing: settings and files are those before the wake.  The
    flush belongs to the loop body: it happens on the wake that sees the
    session over after having seen it active, the worker still running. *)
Theorem stop_exits_without_flush
        (ws : Sectors.worker) (es : Sectors.env)
        (wf : Fuel.worker) (ef : Fuel.env) :
  Sectors.stopped ws = false ->
  Fuel.stopped wf = false ->
  (exists ws',
      sectors_wake (Sectors.stop ws) es = Ok ws'
      /\ Sectors.stopped ws' = true
      /\ Sectors.in_active_list ws' = false
      /\ Sectors.cfg ws' = Sectors.cfg ws)
  /\ (exists wf',
         fuel_wake (Fuel.stop wf) ef = Ok wf'
         /\ Fuel.stopped wf' = true
         /\ Fuel.in_active_list wf' = false
         /\ Fuel.disk wf' = Fuel.disk wf)
  /\ (forall st,
         Sectors.event ws = false -> Sectors.api_state es = false ->
         Sectors.reset ws = true -> Sectors.vars ws = Some st ->
         exists ws',
           sectors_wake ws es = Ok ws'
           /\ Sectors.cfg ws'
              = Sectors.save_sector_data py_str (Sectors.cfg ws)
                  (Sectors.combo_id st) (Sectors.session_id st)
                  (Sectors.best_s_pb st) (Sectors.laptime_best st)
                  (Sectors.best_s_tb st)
           /\ Sectors.stopped ws' = false /\ Sectors.reset ws' = false)
  /\ (forall st,
         Fuel.event wf = false -> Fuel.api_state ef = false ->
         Fuel.reset wf = true -> Fuel.vars wf = Some st ->
         exists wf',
           fuel_wake wf ef = Ok wf'
           /\ Fuel.disk wf'
              = (if Fuel.delayed_save st
                 then Fuel.save_deltafuel (Fuel.disk wf) (Fuel.combo_id st)
                                          (Fuel.delta_list_last st)
                 else Fuel.disk wf)
           /\ Fuel.stopped wf' = false /\ Fuel.reset wf' = false).
Proof.
  intros Hs Hf. repeat split.
  - exists (Sectors.loop_exit (Sectors.stop ws)).
    unfold Sectors.wake. cbn. rewrite Hs.
    repeat split.
  - exists (Fuel.loop_exit (Fuel.stop wf)).
    unfold Fuel.wake. cbn. rewrite Hf.
    repeat split.
  - intros st He Ha Hr Hv. apply sectors_flush_on_idle; assumption.
  - intros st He Ha Hr Hv. apply fuel_flush_on_idle; assumption.
Qed.

(** Starting a worker that runs changes nothing. *)
Lemma start_running_is_noop (ws : Sectors.worker) (wf : Fuel.worker) :
  (Sectors.stopped ws = false -> Sectors.start ws = ws)
  /\ (Fuel.stopped wf = false -> Fuel.start wf = wf).
Proof.
  unfold Sectors.start, Fuel.start.
  split; intros ->; reflexivity.
Qed.

End Workers.

Lemma stop_exits_without_flush_witness :
  Sectors.stopped Sample.sectors_active = false
  /\ Fuel.stopped Sample.fuel_active = false
  /\ (exists wf',
         Fuel.wake Literal.round6 Literal.distance Literal.delta_telemetry
                   Literal.val_delta_list
                   (Fuel.stop Sample.fuel_active) Sample.fuel_env_idle
         = Ok wf'
         /\ Fuel.stopped wf' = true
         /\ Fuel.in_active_list wf' = false
         /\ Fuel.disk wf' = Fuel.disk Sample.fuel_active).
Proof.
  split; [reflexivity|]. split; [reflexivity|].
  exact (proj1 (proj2 (stop_exits_without_flush
                         Literal.py_float Literal.py_str
                         Literal.round6 Literal.distance
                         Literal.delta_telemetry Literal.val_delta_list
                         Sample.sectors_active Sample.sectors_env_idle
                         Sample.fuel_active Sample.fuel_env_idle
                         eq_refl eq_refl))).
Defined.

(** C5, as stated, fails: a fuel worker with a validated curve waiting to be
    saved, and a sector worker with a valid personal best, are stopped in
    the middle of a session; the next wake marks them stopped with no file
    and no record written, where the wake that sees the session over writes
    both. *)
Lemma stop_skips_final_flush :
  Fuel.delayed_save Sample.fuel_st = true
  /\ Fuel.wake Literal.round6 Literal.distance Literal.delta_telemetry
               Literal.val_delta_list
               (Fuel.stop Sample.fuel_active) Sample.fuel_env_idle
     = Ok (Fuel.loop_exit (Fuel.stop Sample.fuel_active))
  /\ Fuel.stopped (Fuel.loop_exit (Fuel.stop Sample.fuel_active)) = true
  /\ Fuel.disk (Fuel.loop_exit (Fuel.stop Sample.fuel_active)) = []
  /\ (exists w,
         Fuel.wake Literal.round6 Literal.distance Literal.delta_telemetry
                   Literal.val_delta_list
                   Sample.fuel_active Sample.fuel_env_idle = Ok w
         /\ Fuel.disk w = [("combo"%string, Fuel.Numeric Sample.lap_curve)])
  /\ Sectors.sector_time_all (Sectors.best_s_pb Sample.sectors_st) = true
  /\ Sectors.wake Literal.py_float Literal.py_str
                  (Sectors.stop Sample.sectors_active) Sample.sectors_env_idle
     = Ok (Sectors.loop_exit (Sectors.stop Sample.sectors_active))
  /\ Sectors.stopped (Sectors.loop_exit (Sectors.stop Sample.sectors_active))
     = true
  /\ Sectors.sector_info
       (Sectors.cfg (Sectors.loop_exit (Sectors.stop Sample.sectors_active)))
     = ""%string
  /\ (exists w,
         Sectors.wake Literal.py_float Literal.py_str
                      Sample.sectors_active Sample.sectors_env_idle = Ok w
         /\ Sectors.sector_info_on_disk (Sectors.cfg w)
            = "combo|1.0|600.0|12.0|92.5|30.2|30.8|31.5|30.2|30.8|31.5"%string).
Proof.
  repeat split; try (eexists; split; reflexivity).
Qed.

(** ** The fuel estimator *)

Section FuelTick.

Import Fuel.

Variable round6 : Q -> Q.
Variable distance : xyz -> xyz -> Q.
Variable delta_telemetry : Q -> Q -> curve -> bool -> Q.

#[local] Abbreviation track := (Fuel.track round6 distance delta_telemetry).
#[local] Abbreviation update_data :=
  (Fuel.update_data round6 distance delta_telemetry).
#[local] Abbreviation run := (Fuel.run round6 distance delta_telemetry).
#[local] Abbreviation closed_curve := (Fuel.closed_curve round6).

(** *** The fields that [track] leaves *)

Lemma track_used_curr (st : locals) (t : telemetry) :
  used_curr (track st t)
  = if new_lap (lap_stime t) (last_lap_stime st) then 0
    else snd (fuel_step st t).
Proof.
  reflexivity.
Qed.

Lemma track_used_last_raw (st : locals) (t : telemetry) :
  used_last_raw (track st t)
  = if new_lap (lap_stime t) (last_lap_stime st) then snd (fuel_step st t)
    else used_last_raw st.
Proof.
  reflexivity.
Qed.

Lemma track_amounts (st : locals) (t : telemetry) :
  amount_start (track st t) = fst (fst (fuel_step st t))
  /\ amount_last (track st t) = snd (fst (fuel_step st t)).
Proof.
  split; reflexivity.
Qed.

Lemma track_pit_lap (st : locals) (t : telemetry) :
  pit_lap (track st t)
  = if new_lap (lap_stime t) (last_lap_stime st) then false
    else read_pit_lap (pit_lap st) (in_pits t).
Proof.
  reflexivity.
Qed.

Lemma track_last_lap_stime (st : locals) (t : telemetry) :
  last_lap_stime (track st t) = lap_stime t.
Proof.
  reflexivity.
Qed.

(** The current curve is started afresh on a lap boundary and only grows
    otherwise. *)
Lemma track_delta_list_curr (st : locals) (t : telemetry) :
  exists tail,
    delta_list_curr (track st t)
    = (if new_lap (lap_stime t) (last_lap_stime st) then [DELTA_ZERO]
       else delta_list_curr st) ++ tail.
Proof.
  unfold Fuel.track. cbn [delta_list_curr].
  match goal with
  | |- context [if ?c then ?l ++ ?x else _] => destruct c
  end.
  - eexists. reflexivity.
  - exists []. symmetry. apply app_nil_r.
Qed.

(** Staging on this iteration or not, as it shows in the state: a staged
    curve is pending or already the reference; without staging the pending
    curve is the former one or none, and validation is not switched on. *)
Lemma track_staging (st : locals) (t : telemetry) :
  (staged st t = true ->
   delta_list_temp (track st t) = closed_curve st t
   \/ delta_list_last (track st t) = closed_curve st t)
  /\ (staged st t = false ->
      (delta_list_temp (track st t) = delta_list_temp st
       \/ delta_list_temp (track st t) = [DELTA_ZERO])
      /\ (validating (track st t) = true -> validating st = true)).
Proof.
  unfold Fuel.track.
  cbn [delta_list_temp delta_list_last validating].
  destruct (staged st t).
  - split; [intros _ | discriminate].
    match goal with
    | |- context [if ?c then [DELTA_ZERO] else _] => destruct c
    end; auto.
  - split; [discriminate | intros _].
    match goal with
    | |- context [if ?c then [DELTA_ZERO] else _] => destruct c eqn:Ec
    end.
    + split; [auto | discriminate].
    + split; [auto|].
      cbn [orb].
      match goal with
      | |- context [if ?c then false else _] => destruct c
      end; [discriminate | auto].
Qed.

(** [project] assigns [laps_left] and [amount_need] and nothing else. *)
Lemma update_data_track (st : locals) (t : telemetry)
      (r : locals * output) :
  update_data st t = Ok r ->
  exists laps need, fst r = with_need (track st t) laps need.
Proof.
  unfold Fuel.update_data, project.
  destruct (total_refuel _ _ _) as [[laps need]|]; [|discriminate].
  cbn [Py.bind].
  destruct (end_stint_fuel _ _ _); [|discriminate]. cbn [Py.bind].
  destruct (end_stint_laps _ _); [|discriminate]. cbn [Py.bind].
  destruct (end_stint_pit_counts _ _); [|discriminate]. cbn [Py.bind].
  destruct (end_lap_pit_counts _ _ _); [|discriminate]. cbn [Py.bind].
  destruct (less_pit_stop_consumption _ _ _ _); [|discriminate].
  cbn [Py.bind].
  intros H. injection H as <-. cbn [fst]. eauto.
Qed.

Lemma new_lap_iff (new last : Q) :
  new_lap new last = true <-> last < new /\ ~ last == -1.
Proof.
  unfold new_lap. rewrite andb_true_iff, negb_true_iff, Qltb_lt, Qeqb_neq.
  reflexivity.
Qed.

(** C2, as amended: the lap boundary is an increase of the lap start time.
    The branch fires if and only if the lap start time just read is above
    the one seen before and that one is not the sentinel -1; when it fires
    the usage of the lap is handed over, the accumulators start afresh and
    a staged curve is closed; when it does not they carry on. *)
Theorem lap_boundary_on_increase (st : locals) (t : telemetry) :
  let st' := track st t in
  let boundary := last_lap_stime st < lap_stime t /\ ~ last_lap_stime st == -1 in
  (new_lap (lap_stime t) (last_lap_stime st) = true <-> boundary)
  /\ (boundary ->
      used_curr st' = 0
      /\ used_last_raw st' = snd (fuel_step st t)
      /\ pit_lap st' = false
      /\ (exists tail, delta_list_curr st' = DELTA_ZERO :: tail)
      /\ (stages (delta_list_curr st)
                 (read_pit_lap (pit_lap st) (in_pits t)) = true ->
          delta_list_temp st' = closed_curve st t
          \/ delta_list_last st' = closed_curve st t))
  /\ (~ boundary ->
      used_curr st' = snd (fuel_step st t)
      /\ used_last_raw st' = used_last_raw st
      /\ pit_lap st' = read_pit_lap (pit_lap st) (in_pits t)
      /\ (exists tail, delta_list_curr st' = delta_list_curr st ++ tail)
      /\ staged st t = false).
Proof.
  cbv zeta. split; [apply new_lap_iff|].
  pose proof (track_used_curr st t) as Hu.
  pose proof (track_used_last_raw st t) as Hr.
  pose proof (track_pit_lap st t) as Hp.
  pose proof (track_delta_list_curr st t) as [tail Hc].
  pose proof (track_staging st t) as [Hs _].
  unfold staged in *.
  destruct (new_lap (lap_stime t) (last_lap_stime st)) eqn:E.
  - apply new_lap_iff in E. split; [|tauto].
    intros _. repeat split; auto.
    exists tail. exact Hc.
  - split.
    + intros B. apply new_lap_iff in B. congruence.
    + intros _. repeat split; auto.
      exists tail. exact Hc.
Qed.

End FuelTick.

(** C2, as stated, fails: from a lap start time of 200 s, a reading of 100 s
    is a decrease and leaves the 0.1 l used so far in place; a reading of
    292 s is an increase, and hands the usage over and resets it. *)
Lemma lap_boundary_not_on_decrease :
  100 < 200 /\ ~ 200 == -1
  /\ Fuel.new_lap 100 200 = false
  /\ Fuel.used_curr
       (Fuel.track Literal.round6 Literal.distance Literal.delta_telemetry
                   Sample.fuel_st (Sample.fuel_reading 100 40 false))
     = Fuel.used_curr Sample.fuel_st
  /\ ~ 292 < 200
  /\ Fuel.new_lap 292 200 = true
  /\ Fuel.used_curr
       (Fuel.track Literal.round6 Literal.distance Literal.delta_telemetry
                   Sample.fuel_st (Sample.fuel_reading 292 40 false))
     = 0.
Proof. repeat split; discriminate. Qed.

(** ** The fuel projections *)

Section FuelProjections.

Import Fuel.

Lemma div_ok (a b : Q) : ~ b == 0 -> Py.div a b = Ok (a / b).
Proof.
  intros H. unfold Py.div. apply Qeqb_neq in H. rewrite H. reflexivity.
Qed.

Lemma div_raises (a b : Q) : b == 0 -> Py.div a b = Raise ZeroDivisionError.
Proof.
  intros H. unfold Py.div. apply Qeqb_eq in H. rewrite H. reflexivity.
Qed.

Lemma truthy_nonzero (x : Q) : Py.truthy x = true <-> ~ x == 0.
Proof. unfold Py.truthy. rewrite negb_true_iff. apply Qeqb_neq. Qed.

(** The guarded projections return on every input. *)
Lemma end_stint_laps_total (amount_curr used_est : Q) :
  end_stint_laps amount_curr used_est
  = Ok (if Py.truthy used_est then amount_curr / used_est else 0).
Proof.
  unfold end_stint_laps. destruct (Py.truthy used_est) eqn:E; [|reflexivity].
  apply div_ok. now apply truthy_nonzero.
Qed.

Lemma end_stint_fuel_total (amount_curr used_curr used_est : Q) :
  end_stint_fuel amount_curr used_curr used_est
  = Ok (if Py.truthy used_est
        then Py.modf_frac ((amount_curr + used_curr) / used_est) * used_est
        else 0).
Proof.
  unfold end_stint_fuel. destruct (Py.truthy used_est) eqn:E; [|reflexivity].
  rewrite div_ok by now apply truthy_nonzero. reflexivity.
Qed.

Lemma less_pit_stop_consumption_total
      (est_pits_late capacity amount_curr laps_left : Q) :
  exists q,
    less_pit_stop_consumption est_pits_late capacity amount_curr laps_left
    = Ok q.
Proof.
  unfold less_pit_stop_consumption.
  destruct (Py.truthy laps_left) eqn:E; [|eauto].
  rewrite div_ok by now apply truthy_nonzero. eauto.
Qed.

(** The two pit-stop counts divide by their capacity argument unguarded:
    they raise exactly when it is zero. *)
Lemma end_stint_pit_counts_raises (amount_need capacity : Q) :
  (capacity == 0 ->
   end_stint_pit_counts amount_need capacity = Raise ZeroDivisionError)
  /\ (~ capacity == 0 ->
      end_stint_pit_counts amount_need capacity
      = Ok (amount_need / capacity)).
Proof.
  unfold end_stint_pit_counts. split; [apply div_raises | apply div_ok].
Qed.

Lemma end_lap_pit_counts_raises (amount_need est_empty capacity : Q) :
  (capacity == 0 ->
   end_lap_pit_counts amount_need est_empty capacity
   = Raise ZeroDivisionError)
  /\ (~ capacity == 0 ->
      exists q, end_lap_pit_counts amount_need est_empty capacity = Ok q).
Proof.
  unfold end_lap_pit_counts.
  destruct (Py.truthy est_empty) eqn:E.
  - rewrite div_ok by now apply truthy_nonzero. cbn [Py.bind].
    split; intros H.
    + rewrite div_raises by assumption. reflexivity.
    + rewrite div_ok by assumption. cbn. eauto.
  - cbn [Py.bind]. split; intros H.
    + rewrite div_raises by assumption. reflexivity.
    + rewrite div_ok by assumption. cbn. eauto.
Qed.

(** "Total refuel" divides by a last lap time that it has tested positive. *)
Lemma total_refuel_total (st : locals) (t : telemetry) (used_est : Q) :
  exists need, total_refuel st t used_est = Ok need.
Proof.
  unfold total_refuel.
  destruct (lap_type t); [eauto|].
  qtest (Qltb 0 (laptime_last st)); [|eauto].
  assert (~ laptime_last st == 0) as N by lra.
  rewrite (div_ok _ _ N). cbn [Py.bind].
  rewrite (div_ok _ _ N). cbn [Py.bind]. eauto.
Qed.

(** The projections raise exactly when the capacity less that fuel is 0. *)
Lemma project_raises (st : locals) (t : telemetry) :
  (capacity t - fuel_before_stop st t == 0 ->
   project st t = Raise ZeroDivisionError)
  /\ (~ capacity t - fuel_before_stop st t == 0 ->
      exists r, project st t = Ok r).
Proof.
  unfold project, fuel_before_stop.
  destruct (total_refuel_total st t
              (end_lap_consumption
                 (used_last st) (delta_fuel st)
                 ((0 =? Z.b2z (pit_lap st))%Z
                  && (Z.b2z (pit_lap st) <? lap_number t)%Z)))
    as [[laps need] ->].
  cbn [Py.bind].
  rewrite end_stint_fuel_total, end_stint_laps_total. cbn [Py.bind].
  split; intros H.
  - rewrite (proj1 (end_stint_pit_counts_raises _ _) H). reflexivity.
  - rewrite (proj2 (end_stint_pit_counts_raises _ _) H). cbn [Py.bind].
    match goal with
    | |- context [end_lap_pit_counts ?a ?b ?c] =>
        destruct (proj2 (end_lap_pit_counts_raises a b c) H) as [early ->]
    end.
    cbn [Py.bind].
    match goal with
    | |- context [less_pit_stop_consumption ?a ?b ?c ?d] =>
        destruct (less_pit_stop_consumption_total a b c d) as [less ->]
    end.
    cbn [Py.bind]. eauto.
Qed.

Variable round6 : Q -> Q.
Variable distance : xyz -> xyz -> Q.
Variable delta_telemetry : Q -> Q -> curve -> bool -> Q.

#[local] Abbreviation update_data :=
  (Fuel.update_data round6 distance delta_telemetry).

(** C9: the capacity of an iteration is the reading clamped from below by
    1, whatever the reading; it is the published [tankCapacity], and the
    tank capacity in each projection that uses one. *)
Theorem tank_capacity_at_least_one
        (st : locals) (t : telemetry) (r : locals * output) :
  update_data st t = Ok r ->
  let st' := fst r in
  let out := snd r in
  capacity t = Py.max (tank_capacity t) 1
  /\ 1 <= capacity t
  /\ tankCapacity out = capacity t
  /\ estimatedEmptyCapacity out
     = end_lap_empty_capacity (capacity t)
                              (amountFuelCurrent out + used_curr st')
                              (estimatedFuelConsumption out)
  /\ end_stint_pit_counts (amountFuelNeeded out)
                          (capacity t - amountFuelBeforePitstop out)
     = Ok (estimatedNumPitStopsEnd out)
  /\ end_lap_pit_counts (amountFuelNeeded out) (estimatedEmptyCapacity out)
                        (capacity t - amountFuelBeforePitstop out)
     = Ok (estimatedNumPitStopsEarly out)
  /\ less_pit_stop_consumption (estimatedNumPitStopsEnd out) (capacity t)
                               (amountFuelCurrent out) (laps_left st')
     = Ok (oneLessPitFuelConsumption out).
Proof.
  unfold Fuel.update_data, project.
  destruct (total_refuel _ _ _) as [[laps need]|]; [|discriminate].
  cbn [Py.bind].
  destruct (end_stint_fuel _ _ _) as [left|]; [|discriminate].
  cbn [Py.bind].
  destruct (end_stint_laps _ _); [|discriminate]. cbn [Py.bind].
  destruct (end_stint_pit_counts _ _) as [late|] eqn:El; [|discriminate].
  cbn [Py.bind].
  destruct (end_lap_pit_counts _ _ _) as [early|] eqn:Ee; [|discriminate].
  cbn [Py.bind].
  destruct (less_pit_stop_consumption _ _ _ _) as [less|] eqn:Es;
    [|discriminate].
  cbn [Py.bind].
  intros H. injection H as <-. cbn.
  repeat split; auto.
  apply max_lower.
Qed.

End FuelProjections.

Lemma tank_capacity_at_least_one_witness :
  exists r,
    Fuel.update_data Literal.round6 Literal.distance Literal.delta_telemetry
                     Sample.fuel_st
                     (Sample.with_tank (Sample.fuel_reading 200 40 false) 0)
    = Ok r
    /\ 1 <= Fuel.tankCapacity (snd r).
Proof.
  destruct (Fuel.update_data
              Literal.round6 Literal.distance Literal.delta_telemetry
              Sample.fuel_st
              (Sample.with_tank (Sample.fuel_reading 200 40 false) 0))
    as [r|e] eqn:E.
  - exists r. split; [reflexivity|].
    pose proof (tank_capacity_at_least_one _ _ _ _ _ _ E) as H.
    cbv zeta in H. destruct H as [_ [H1 [H2 _]]].
    rewrite H2. exact H1.
  - vm_compute in E. discriminate E.
Defined.

(** C4 on the code: the two pit-stop counts raise [ZeroDivisionError] on a
    capacity argument of 0, and so does a whole iteration: with a reported
    tank capacity of 0 (clamped to 1), one litre in the tank and a last lap
    that used 2 l, the fuel before the next stop is 1 l and the remaining
    capacity 1 - 1 = 0. *)
Theorem pit_counts_raise_on_zero_capacity :
  Fuel.end_stint_pit_counts 5 0 = Raise ZeroDivisionError
  /\ Fuel.end_lap_pit_counts 5 3 0 = Raise ZeroDivisionError
  /\ Fuel.capacity Sample.fuel_reading_no_tank = 1
  /\ (exists left,
         Fuel.end_stint_fuel 1 0 2 = Ok left /\ left == 1)
  /\ Fuel.update_data Literal.round6 Literal.distance Literal.delta_telemetry
                      Sample.fuel_st_low Sample.fuel_reading_no_tank
     = Raise ZeroDivisionError.
Proof.
  repeat split; try (vm_compute; reflexivity).
  eexists. split; reflexivity.
Qed.

(** ** Runs of the fuel estimator *)

Section FuelRuns.

Import Fuel.

Variable round6 : Q -> Q.
Variable distance : xyz -> xyz -> Q.
Variable delta_telemetry : Q -> Q -> curve -> bool -> Q.

#[local] Abbreviation track := (Fuel.track round6 distance delta_telemetry).
#[local] Abbreviation update_data :=
  (Fuel.update_data round6 distance delta_telemetry).
#[local] Abbreviation run := (Fuel.run round6 distance delta_telemetry).

(** The three cases of "Realtime fuel consumption". *)
Lemma fuel_step_increase (s : locals) (t : telemetry) :
  amount_last s < amount_curr t ->
  fuel_step s t = (amount_curr t, amount_curr t, used_curr s).
Proof.
  intros H. unfold fuel_step, fuel_consumption.
  apply Qltb_lt in H. rewrite H. reflexivity.
Qed.

Lemma fuel_step_decrease (s : locals) (t : telemetry) :
  amount_curr t < amount_last s ->
  fuel_step s t
  = (amount_start s, amount_curr t,
     used_curr s + (amount_last s - amount_curr t)).
Proof.
  intros H. unfold fuel_step, fuel_consumption.
  assert (Qltb (amount_last s) (amount_curr t) = false) as ->
      by (apply Qltb_ge; apply Qlt_le_weak; assumption).
  apply Qltb_lt in H. rewrite H. reflexivity.
Qed.

Lemma fuel_step_equal (s : locals) (t : telemetry) :
  amount_last s == amount_curr t ->
  fuel_step s t = (amount_start s, amount_last s, used_curr s).
Proof.
  intros H. unfold fuel_step, fuel_consumption.
  assert (Qltb (amount_last s) (amount_curr t) = false) as ->
      by (apply Qltb_ge; rewrite H; apply Qle_refl).
  assert (Qltb (amount_curr t) (amount_last s) = false) as ->
      by (apply Qltb_ge; rewrite H; apply Qle_refl).
  reflexivity.
Qed.

(** The fields of the state after a whole iteration are those [track]
    leaves. *)
Lemma update_data_fields (s : locals) (t : telemetry) (r : locals * output) :
  update_data s t = Ok r ->
  used_curr (fst r) = used_curr (track s t)
  /\ amount_start (fst r) = amount_start (track s t)
  /\ amount_last (fst r) = amount_last (track s t)
  /\ pit_lap (fst r) = pit_lap (track s t)
  /\ last_lap_stime (fst r) = lap_stime t
  /\ delta_list_temp (fst r) = delta_list_temp (track s t)
  /\ validating (fst r) = validating (track s t).
Proof.
  intros H.
  destruct (update_data_track _ _ _ _ _ _ H) as [laps [need ->]].
  repeat split.
Qed.

Lemma run_cons (st : locals) (t : telemetry) (ts : list telemetry)
      (sts : list locals) :
  run st (t :: ts) = Ok sts ->
  exists r rest,
    update_data st t = Ok r /\ run (fst r) ts = Ok rest
    /\ sts = fst r :: rest.
Proof.
  cbn [Fuel.run].
  destruct (update_data st t) as [r|]; [|discriminate]. cbn [Py.bind].
  destruct (run (fst r) ts) as [rest|] eqn:E; [|discriminate].
  cbn [Py.bind].
  intros H. injection H as <-. exists r, rest. repeat split. exact E.
Qed.

Lemma run_length (ts : list telemetry) :
  forall st sts, run st ts = Ok sts -> List.length sts = List.length ts.
Proof.
  induction ts as [|t ts IH]; intros st sts H.
  - cbn in H. injection H as <-. reflexivity.
  - apply run_cons in H as [r [rest [_ [Hr ->]]]].
    cbn. f_equal. eapply IH; eassumption.
Qed.

(** After an iteration the last reading is the one just read. *)
Lemma amount_last_read (s : locals) (t : telemetry) (r : locals * output) :
  update_data s t = Ok r -> amount_last (fst r) == amount_curr t.
Proof.
  intros H.
  destruct (update_data_fields _ _ _ H) as [_ [_ [-> _]]].
  rewrite (proj2 (track_amounts round6 distance delta_telemetry s t)).
  destruct (Qlt_le_dec (amount_last s) (amount_curr t)) as [Lt | Ge].
  - rewrite (fuel_step_increase _ _ Lt). reflexivity.
  - destruct (Qlt_le_dec (amount_curr t) (amount_last s)) as [Gt | Le].
    + rewrite (fuel_step_decrease _ _ Gt). reflexivity.
    + assert (amount_last s == amount_curr t) as E
          by (apply Qle_antisym; assumption).
      rewrite (fuel_step_equal _ _ E). exact E.
Qed.

(** One iteration that is a lap boundary, or whose reading is not below the
    last one. *)
Lemma no_usage_step (s : locals) (t : telemetry) (r : locals * output) :
  update_data s t = Ok r ->
  used_curr s == 0 ->
  new_lap (lap_stime t) (last_lap_stime s) = true
  \/ amount_last s <= amount_curr t ->
  used_curr (fst r) == 0.
Proof.
  intros H U L.
  destruct (update_data_fields _ _ _ H) as [-> _].
  rewrite track_used_curr.
  destruct (new_lap _ _); [reflexivity|].
  destruct L as [L | L]; [discriminate|].
  destruct (Qlt_le_dec (amount_last s) (amount_curr t)) as [Lt | Ge].
  - rewrite (fuel_step_increase _ _ Lt). exact U.
  - assert (amount_last s == amount_curr t) as E
        by (apply Qle_antisym; assumption).
    rewrite (fuel_step_equal _ _ E). exact U.
Qed.

Lemma non_decreasing_from (stime prev prev' : Q) (ts : list telemetry) :
  prev' == prev ->
  non_decreasing_in_laps stime prev ts ->
  non_decreasing_in_laps stime prev' ts.
Proof.
  intros E. destruct ts as [|t ts]; [trivial|].
  cbn. intros [[L | L] N]; split; auto.
  right. rewrite E. exact L.
Qed.

Lemma no_usage_run (ts : list telemetry) :
  forall st sts,
    run st ts = Ok sts ->
    used_curr st == 0 ->
    non_decreasing_in_laps (last_lap_stime st) (amount_last st) ts ->
    Forall (fun s => used_curr s == 0) sts.
Proof.
  induction ts as [|t ts IH]; intros st sts H U N.
  - cbn in H. injection H as <-. constructor.
  - apply run_cons in H as [r [rest [Hr [Hrest ->]]]].
    cbn in N. destruct N as [L N].
    pose proof (no_usage_step _ _ _ Hr U L) as U'.
    constructor; [assumption|].
    apply (IH _ _ Hrest U').
    destruct (update_data_fields _ _ _ Hr) as [_ [_ [_ [_ [-> _]]]]].
    apply non_decreasing_from with (amount_curr t); [|exact N].
    apply (amount_last_read _ _ _ Hr).
Qed.

Lemma usage_step_nonneg (s : locals) (t : telemetry) (r : locals * output) :
  update_data s t = Ok r -> 0 <= used_curr s -> 0 <= used_curr (fst r).
Proof.
  intros H U.
  destruct (update_data_fields _ _ _ H) as [Hu _].
  rewrite Hu, track_used_curr.
  destruct (new_lap _ _); [apply Qle_refl|].
  unfold fuel_step, fuel_consumption.
  qtest (Qltb (amount_last s) (amount_curr t)); cbn [snd]; [assumption|].
  qtest (Qltb (amount_curr t) (amount_last s)); cbn [snd]; [|assumption].
  lra.
Qed.

Lemma usage_run_nonneg (ts : list telemetry) :
  forall st sts,
    run st ts = Ok sts -> 0 <= used_curr st ->
    Forall (fun s => 0 <= used_curr s) sts.
Proof.
  induction ts as [|t ts IH]; intros st sts H U.
  - cbn in H. injection H as <-. constructor.
  - apply run_cons in H as [r [rest [Hr [Hrest ->]]]].
    pose proof (usage_step_nonneg _ _ _ Hr U) as U'.
    constructor; [assumption|]. apply (IH _ _ Hrest U').
Qed.

(** C7: over any run of iterations, usage that starts at 0 stays 0 while
    the readings never decrease within a lap, the last reading seen coming
    first, and usage never becomes negative; on one iteration a reading
    below the last one adds exactly the positive difference, and a reading
    above it moves the start amount and adds nothing (a lap boundary then
    resets the usage to 0 in either case). *)
Theorem usage_only_from_decreases
        (st : locals) (ts : list telemetry) (sts : list locals) :
  run st ts = Ok sts ->
  (used_curr st == 0 ->
   non_decreasing_in_laps (last_lap_stime st) (amount_last st) ts ->
   Forall (fun s => used_curr s == 0) sts)
  /\ (0 <= used_curr st -> Forall (fun s => 0 <= used_curr s) sts)
  /\ (forall s t r,
         update_data s t = Ok r ->
         let lap := new_lap (lap_stime t) (last_lap_stime s) in
         (amount_curr t < amount_last s ->
          0 < amount_last s - amount_curr t
          /\ used_curr (fst r)
             = (if lap then 0
                else used_curr s + (amount_last s - amount_curr t))
          /\ amount_start (fst r) = amount_start s
          /\ amount_last (fst r) = amount_curr t)
         /\ (amount_last s < amount_curr t ->
             used_curr (fst r) = (if lap then 0 else used_curr s)
             /\ amount_start (fst r) = amount_curr t
             /\ amount_last (fst r) = amount_curr t)).
Proof.
  intros H. split; [|split].
  - intros U N. eapply no_usage_run; eassumption.
  - intros U. eapply usage_run_nonneg; eassumption.
  - intros s t r Hr lap. subst lap.
    destruct (update_data_fields _ _ _ Hr) as [Hu [Hs [Hl _]]].
    rewrite Hu, Hs, Hl, track_used_curr.
    destruct (track_amounts round6 distance delta_telemetry s t) as [-> ->].
    split; intros C.
    + rewrite (fuel_step_decrease _ _ C). cbn [fst snd].
      repeat split. lra.
    + rewrite (fuel_step_increase _ _ C). cbn [fst snd].
      repeat split.
Qed.

Lemma read_pit_lap_or (p q : bool) : read_pit_lap p q = p || q.
Proof. destruct p, q; reflexivity. Qed.

(** One iteration, for a vehicle in the pits now or earlier in the lap: off
    a lap boundary the flag is set; on a lap boundary it is reset and the
    curve of the lap is not staged. *)
Lemma pit_lap_step (s : locals) (t : telemetry) (r : locals * output) :
  update_data s t = Ok r ->
  pit_lap s = true \/ in_pits t = true ->
  (new_lap (lap_stime t) (last_lap_stime s) = false -> pit_lap (fst r) = true)
  /\ (new_lap (lap_stime t) (last_lap_stime s) = true ->
      pit_lap (fst r) = false
      /\ staged s t = false
      /\ (delta_list_temp (fst r) = delta_list_temp s
          \/ delta_list_temp (fst r) = [DELTA_ZERO])
      /\ (validating (fst r) = true -> validating s = true)).
Proof.
  intros H P.
  destruct (update_data_fields _ _ _ H) as [_ [_ [_ [Hp [_ [Ht Hv]]]]]].
  rewrite Hp, Ht, Hv, track_pit_lap.
  assert (read_pit_lap (pit_lap s) (in_pits t) = true) as R
      by (rewrite read_pit_lap_or; destruct P as [-> | ->];
          [reflexivity | apply orb_true_r]).
  split; intros L; rewrite L; [assumption|].
  assert (staged s t = false) as S
      by (unfold staged, stages; rewrite R; cbn;
          rewrite !andb_false_r; reflexivity).
  destruct (track_staging round6 distance delta_telemetry s t) as [_ N].
  destruct (N S) as [N1 N2]. auto.
Qed.

(** The flag falls only on a lap boundary. *)
Lemma pit_lap_falls_on_boundary (s : locals) (t : telemetry)
      (r : locals * output) :
  update_data s t = Ok r ->
  pit_lap s = true -> pit_lap (fst r) = false ->
  new_lap (lap_stime t) (last_lap_stime s) = true.
Proof.
  intros H P F.
  destruct (new_lap _ _) eqn:L; [reflexivity|].
  destruct (pit_lap_step _ _ _ H (or_introl P)) as [K _].
  rewrite (K L) in F. discriminate.
Qed.

Lemma pit_lap_kept (ts : list telemetry) :
  forall st sts,
    run st ts = Ok sts ->
    no_lap_boundary (last_lap_stime st) ts = true ->
    pit_lap st = true ->
    Forall (fun s => pit_lap s = true) sts.
Proof.
  induction ts as [|t ts IH]; intros st sts H N P.
  - cbn in H. injection H as <-. constructor.
  - apply run_cons in H as [r [rest [Hr [Hrest ->]]]].
    cbn in N. apply andb_true_iff in N as [N1 N2].
    apply negb_true_iff in N1.
    destruct (pit_lap_step _ _ _ Hr (or_introl P)) as [K _].
    constructor; [auto|].
    apply (IH _ _ Hrest); [|auto].
    destruct (update_data_fields _ _ _ Hr) as [_ [_ [_ [_ [-> _]]]]].
    assumption.
Qed.

Lemma pit_lap_from_reading (before : list telemetry) :
  forall st t_pit after sts,
    run st (before ++ t_pit :: after) = Ok sts ->
    no_lap_boundary (last_lap_stime st) (before ++ t_pit :: after) = true ->
    in_pits t_pit = true ->
    Forall (fun s => pit_lap s = true) (skipn (List.length before) sts).
Proof.
  induction before as [|b before IH]; intros st t_pit after sts H N P.
  - cbn [app] in *. cbn [List.length skipn].
    apply run_cons in H as [r [rest [Hr [Hrest ->]]]].
    cbn in N. apply andb_true_iff in N as [N1 N2].
    apply negb_true_iff in N1.
    destruct (pit_lap_step _ _ _ Hr (or_intror P)) as [K _].
    constructor; [auto|].
    apply (pit_lap_kept _ _ _ Hrest); [|auto].
    destruct (update_data_fields _ _ _ Hr) as [_ [_ [_ [_ [-> _]]]]].
    assumption.
  - cbn [app] in *. cbn [List.length].
    apply run_cons in H as [r [rest [Hr [Hrest ->]]]].
    cbn [skipn].
    cbn in N. apply andb_true_iff in N as [_ N2].
    apply (IH (fst r) t_pit after rest Hrest); [|assumption].
    destruct (update_data_fields _ _ _ Hr) as [_ [_ [_ [_ [-> _]]]]].
    assumption.
Qed.

Lemma Forall_skipn_last {A : Type} (P : A -> Prop) (n : nat) (l : list A)
      (d : A) :
  Forall P (skipn n l) -> (n < List.length l)%nat -> P (last l d).
Proof.
  revert n. induction l as [|a l IH]; intros n F L; [cbn in L; lia|].
  destruct l as [|a' l].
  - destruct n; [|cbn in L; lia]. cbn in F. inversion F. assumption.
  - change (P (last (a' :: l) d)).
    destruct n.
    + cbn [skipn] in F. inversion F as [|? ? _ F']. subst.
      apply (IH 0%nat); [exact F' | cbn; lia].
    + cbn [skipn] in F. cbn [List.length] in L.
      apply (IH n); [exact F | cbn [List.length]; lia].
Qed.

(** C10, as amended: the flag is sticky between lap boundaries.  Over
    iterations with no lap boundary, one of which reads the vehicle in the
    pits, the flag is set after that iteration and after every later one;
    an iteration resets it only on a lap boundary; and the lap boundary
    that ends such a lap resets it without staging the curve of the lap.
    The iteration that detects a lap boundary counts its own reading for
    the lap that ends: in the pits there, the ending lap is not staged,
    and the flag is down afterwards, so the reading is not kept for the
    lap that begins. *)
Theorem pit_lap_sticky_within_lap
        (st : locals) (before : list telemetry) (t_pit : telemetry)
        (after : list telemetry) (sts : list locals) :
  run st (before ++ t_pit :: after) = Ok sts ->
  no_lap_boundary (last_lap_stime st) (before ++ t_pit :: after) = true ->
  in_pits t_pit = true ->
  Forall (fun s => pit_lap s = true) (skipn (List.length before) sts)
  /\ (forall s t r,
         update_data s t = Ok r ->
         pit_lap s = true -> pit_lap (fst r) = false ->
         new_lap (lap_stime t) (last_lap_stime s) = true)
  /\ (forall t_end r,
         update_data (last sts st) t_end = Ok r ->
         new_lap (lap_stime t_end) (last_lap_stime (last sts st)) = true ->
         pit_lap (fst r) = false
         /\ staged (last sts st) t_end = false
         /\ (delta_list_temp (fst r) = delta_list_temp (last sts st)
             \/ delta_list_temp (fst r) = [DELTA_ZERO])
         /\ (validating (fst r) = true ->
             validating (last sts st) = true))
  /\ (forall s t_end r,
         update_data s t_end = Ok r ->
         in_pits t_end = true ->
         new_lap (lap_stime t_end) (last_lap_stime s) = true ->
         pit_lap (fst r) = false
         /\ staged s t_end = false
         /\ (delta_list_temp (fst r) = delta_list_temp s
             \/ delta_list_temp (fst r) = [DELTA_ZERO])
         /\ (validating (fst r) = true -> validating s = true)).
Proof.
  intros H N P.
  pose proof (pit_lap_from_reading _ _ _ _ _ H N P) as F.
  split; [exact F|]. split; [exact pit_lap_falls_on_boundary|]. split.
  - intros t_end r Hr L.
    assert (pit_lap (last sts st) = true) as PL.
    { apply (Forall_skipn_last _ _ _ _ F).
      rewrite (run_length _ _ _ H), length_app. cbn. lia. }
    destruct (pit_lap_step _ _ _ Hr (or_introl PL)) as [_ K].
    exact (K L).
  - intros s t_end r Hr Pe L.
    destruct (pit_lap_step _ _ _ Hr (or_intror Pe)) as [_ K].
    exact (K L).
Qed.

End FuelRuns.

Lemma usage_only_from_decreases_witness :
  exists sts,
    Fuel.run Literal.round6 Literal.distance Literal.delta_telemetry
             (Fuel.init_locals "combo" Fuel.missing_fuel_data)
             [Sample.fuel_reading 200 5 false;
              Sample.fuel_reading 200 5 false;
              Sample.fuel_reading 292 4 false;
              Sample.fuel_reading 292 9 false]
    = Ok sts
    /\ Forall (fun s => Fuel.used_curr s == 0) sts.
Proof.
  destruct (Fuel.run Literal.round6 Literal.distance Literal.delta_telemetry
                     (Fuel.init_locals "combo" Fuel.missing_fuel_data)
                     [Sample.fuel_reading 200 5 false;
                      Sample.fuel_reading 200 5 false;
                      Sample.fuel_reading 292 4 false;
                      Sample.fuel_reading 292 9 false])
    as [sts|e] eqn:E.
  - exists sts. split; [reflexivity|].
    apply (usage_only_from_decreases _ _ _ _ _ _ E).
    + reflexivity.
    + vm_compute. repeat split;
        first [ left; reflexivity | right; intros C; discriminate C ].
  - vm_compute in E. discriminate E.
Defined.

Lemma pit_lap_sticky_within_lap_witness :
  exists sts,
    Fuel.run Literal.round6 Literal.distance Literal.delta_telemetry
             Sample.fuel_st
             ([Sample.fuel_reading 200 40 false]
                ++ Sample.fuel_reading 200 40 true
                :: [Sample.fuel_reading 200 40 false])
    = Ok sts
    /\ Forall (fun s => Fuel.pit_lap s = true) (skipn 1 sts).
Proof.
  destruct (Fuel.run Literal.round6 Literal.distance Literal.delta_telemetry
                     Sample.fuel_st
                     ([Sample.fuel_reading 200 40 false]
                        ++ Sample.fuel_reading 200 40 true
                        :: [Sample.fuel_reading 200 40 false]))
    as [sts|e] eqn:E.
  - exists sts. split; [reflexivity|].
    apply (pit_lap_sticky_within_lap _ _ _ _ _ _ _ _ E); reflexivity.
  - vm_compute in E. discriminate E.
Defined.

(** A lap with a reading in the pits, then the lap boundary at 292 s: the
    flag is set, kept, and reset on the boundary; the curve of two points
    is dropped, nothing is pending. *)
Example pit_lap_not_staged_example :
  (sts <- Fuel.run Literal.round6 Literal.distance Literal.delta_telemetry
                   Sample.fuel_st
                   [Sample.fuel_reading 200 40 true;
                    Sample.fuel_reading 200 40 false;
                    Sample.fuel_reading 292 39 false] ;;
   Ok (map (fun s => (Fuel.pit_lap s, Fuel.validating s,
                      Fuel.delta_list_temp s)) sts))
  = Ok [(true, false, [Fuel.DELTA_ZERO]);
        (true, false, [Fuel.DELTA_ZERO]);
        (false, false, [Fuel.DELTA_ZERO])].
Proof. vm_compute. reflexivity. Qed.

(** C10 as stated fails for a reading in the pits on the iteration that
    detects a lap boundary.  The lap that began at 292 s is first seen 0.1 s
    into it, in the pits: the flag is down after that iteration and after
    the next one, 10 s into the same lap, and the boundary at 384 s stages
    the curve of the lap for validation. *)
Lemma pit_reading_on_boundary_is_lost :
  Fuel.in_pits (Sample.lap_reading 292 0.1 5 true) = true
  /\ no_lap_boundary 292 [Sample.lap_reading 292 0.1 5 true;
                          Sample.lap_reading 292 10 400 false] = true
  /\ (sts <- Fuel.run Literal.round6 Literal.distance Literal.delta_telemetry
                      Sample.fuel_st
                      [Sample.lap_reading 292 0.1 5 true;
                       Sample.lap_reading 292 10 400 false] ;;
      Ok (map Fuel.pit_lap sts,
          Fuel.staged (last sts Sample.fuel_st)
                      (Sample.lap_reading 384 0.1 5 false)))
     = Ok ([false; false], true)
  /\ (sts <- Fuel.run Literal.round6 Literal.distance Literal.delta_telemetry
                      Sample.fuel_st
                      [Sample.lap_reading 292 0.1 5 true;
                       Sample.lap_reading 292 10 400 false;
                       Sample.lap_reading 384 0.1 5 false] ;;
      Ok (map (fun s => (Fuel.pit_lap s, Fuel.validating s,
                         Fuel.delta_list_temp s)) sts))
     = Ok [(false, false, [Fuel.DELTA_ZERO]);
           (false, false, [Fuel.DELTA_ZERO]);
           (false, true, [[0; 0]; [400; 0]; [410; 0; 92]])].
Proof. vm_compute. repeat split. Qed.

(** ** More on the sector estimator *)

Section SectorMore.

Import Sectors.

(** One iteration, slot by slot: the theoretical best is kept or lowered
    to the previous time just recorded. *)
Lemma best_tb_step (st : locals) (t : telemetry) (i : nat) :
  get (best_s_tb (update_data st t)) i = get (best_s_tb st) i
  \/ (get (best_s_tb (update_data st t)) i = get (prev_s (update_data st t)) i
      /\ get (best_s_tb (update_data st t)) i < get (best_s_tb st) i).
Proof.
  destruct (update_data_cases st t) as [E | [[E _] | [[E _] | [E _]]]];
    rewrite E; auto.
  - unfold update_s3; cbn [best_s_tb prev_s].
    qtest (Qltb (v2 (set2 (prev_s st) (laptime_valid t - last_sector2 t)))
                (v2 (best_s_tb st))); auto.
    destruct i as [|[|i]]; cbn in *; auto.
  - unfold update_s1; cbn [best_s_tb prev_s].
    qtest (Qltb (v0 (set0 (prev_s st) (curr_sector1 t)))
                (v0 (best_s_tb st))); auto.
    destruct i as [|[|i]]; cbn in *; auto.
  - unfold update_s2; cbn [best_s_tb prev_s].
    qtest (Qltb (v1 (set1 (prev_s st) (curr_sector2 t - curr_sector1 t)))
                (v1 (best_s_tb st))); auto.
    destruct i as [|[|i]]; cbn in *; auto.
Qed.

Lemma laptime_best_step (st : locals) (t : telemetry) :
  laptime_best (update_data st t) <= laptime_best st.
Proof.
  destruct (update_data_cases st t) as [E | [[E _] | [[E _] | [E _]]]];
    rewrite E; try apply Qle_refl.
  unfold update_s3; cbn [laptime_best].
  qtest (Qltb (laptime_valid t) (laptime_best st)); cbn [andb].
  - destruct (sector_time_all _); [apply Qlt_le_weak; assumption|].
    apply Qle_refl.
  - apply Qle_refl.
Qed.

(** X1: over any sequence of iterations no theoretical-best slot and no
    best lap time ever rises. *)
Theorem theoretical_best_never_rises
        (ts : list telemetry) (st : locals) (i : nat) :
  get (best_s_tb (fold_left update_data ts st)) i <= get (best_s_tb st) i
  /\ laptime_best (fold_left update_data ts st) <= laptime_best st.
Proof.
  revert st. induction ts as [|t ts IH]; intros st; cbn [fold_left].
  - split; apply Qle_refl.
  - destruct (IH (update_data st t)) as [H1 H2]. split.
    + apply Qle_trans with (get (best_s_tb (update_data st t)) i);
        [exact H1|].
      destruct (best_tb_step st t i) as [-> | [_ L]];
        [apply Qle_refl | apply Qlt_le_weak; exact L].
    + apply Qle_trans with (laptime_best (update_data st t));
        [exact H2 | apply laptime_best_step].
Qed.

(** X3: polling the same reading again changes nothing: once a branch has
    recorded a sector, it waits for the sector index to change. *)
Theorem polling_is_idempotent (st : locals) (t : telemetry) :
  update_data (update_data st t) t = update_data st t.
Proof.
  assert (forall s, last_sector_idx s = sector_idx t -> update_data s t = s)
    as Same.
  { intros s H. unfold update_data. rewrite H, Z.eqb_refl. reflexivity. }
  destruct (update_data_cases st t) as [E | [[E _] | [[E _] | [E _]]]];
    rewrite E.
  - exact E.
  - apply Same. reflexivity.
  - apply Same. reflexivity.
  - apply Same. reflexivity.
Qed.

(** Which branch an iteration takes, from its guard. *)
Lemma first_branch_taken (st : locals) (t : telemetry) :
  last_sector_idx st <> sector_idx t -> in_s1 t = true ->
  update_data st t = update_s3 st t.
Proof.
  intros N G. unfold update_data.
  apply Z.eqb_neq in N. rewrite N, G. reflexivity.
Qed.

Lemma second_branch_taken (st : locals) (t : telemetry) :
  last_sector_idx st <> sector_idx t -> in_s2 t = true ->
  update_data st t = update_s1 st t /\ sector_idx t = 1%Z.
Proof.
  intros N G. unfold update_data.
  apply Z.eqb_neq in N. rewrite N, G. cbn [negb].
  unfold in_s2 in G. apply andb_true_iff in G as [G _].
  apply Z.eqb_eq in G.
  unfold in_s1. rewrite G. cbn. auto.
Qed.

Lemma third_branch_taken (st : locals) (t : telemetry) :
  last_sector_idx st <> sector_idx t -> in_s3 t = true ->
  update_data st t = update_s2 st t /\ sector_idx t = 2%Z.
Proof.
  intros N G. unfold update_data.
  apply Z.eqb_neq in N. rewrite N, G. cbn [negb].
  unfold in_s3 in G. apply andb_true_iff in G as [G _].
  apply andb_true_iff in G as [G _]. apply Z.eqb_eq in G.
  unfold in_s1, in_s2. rewrite G. cbn. auto.
Qed.

Lemma first_branch_index (t : telemetry) :
  in_s1 t = true -> sector_idx t = 0%Z.
Proof.
  unfold in_s1. intros G. apply andb_true_iff in G as [G _].
  apply andb_true_iff in G as [G _]. now apply Z.eqb_eq in G.
Qed.

(** X4: the three splits of a lap.  Three iterations that record sector 1,
    sector 2 and sector 3 in turn leave the previous times
    [[s1, s2 - s1, laptime - last s2]]; when the readings agree (the first
    split read the same twice, the last second split being the second split
    read) the three add up to the lap time. *)
Theorem splits_add_up_to_lap_time (st : locals) (t1 t2 t3 : telemetry) :
  last_sector_idx st <> 1%Z ->
  in_s2 t1 = true -> in_s3 t2 = true -> in_s1 t3 = true ->
  let st' := update_data (update_data (update_data st t1) t2) t3 in
  prev_s st'
  = Vec3 (curr_sector1 t1) (curr_sector2 t2 - curr_sector1 t2)
         (laptime_valid t3 - last_sector2 t3)
  /\ (curr_sector1 t2 == curr_sector1 t1 ->
      last_sector2 t3 == curr_sector2 t2 ->
      v0 (prev_s st') + v1 (prev_s st') + v2 (prev_s st')
      == laptime_valid t3).
Proof.
  intros N G1 G2 G3 st'. subst st'.
  assert (sector_idx t1 = 1%Z) as I1.
  { unfold in_s2 in G1. apply andb_true_iff in G1 as [G _].
    now apply Z.eqb_eq in G. }
  destruct (second_branch_taken st t1) as [E1 _];
    [rewrite I1; exact N | exact G1 |].
  rewrite E1.
  destruct (third_branch_taken (update_s1 st t1) t2) as [E2 I2].
  { unfold update_s1; cbn [last_sector_idx].
    unfold in_s3 in G2. apply andb_true_iff in G2 as [G _].
    apply andb_true_iff in G as [G _]. apply Z.eqb_eq in G.
    rewrite I1, G. discriminate. }
  { exact G2. }
  rewrite E2.
  rewrite (first_branch_taken (update_s2 (update_s1 st t1) t2) t3).
  - unfold update_s3, update_s2, update_s1; cbn.
    split; [reflexivity|].
    intros A B. rewrite A, B. ring.
  - unfold update_s2; cbn [last_sector_idx].
    rewrite I2, (first_branch_index _ G3). discriminate.
  - exact G3.
Qed.

(** X2: an ordering the iterations keep: with the theoretical best not
    above the personal best and the previous time in any sector, it stays
    so over any sequence of iterations. *)
Theorem best_order_kept (st : locals) (ts : list telemetry) :
  best_ordered st -> best_ordered (fold_left update_data ts st).
Proof.
  revert st. induction ts as [|t ts IH]; intros st H; cbn [fold_left];
    [exact H|].
  apply IH. clear IH ts.
  pose proof (H 0%nat) as [P0 R0]. pose proof (H 1%nat) as [P1 R1].
  pose proof (H 2%nat) as [P2 R2]. cbn [get] in *.
  destruct (update_data_cases st t) as [E | [[E _] | [[E _] | [E _]]]];
    rewrite E; [exact H | | |].
  - unfold update_s3. intros i. cbn [best_s_tb best_s_pb prev_s].
    destruct (Qltb (laptime_valid t) (laptime_best st)
              && sector_time_all
                   (set2 (prev_s st) (laptime_valid t - last_sector2 t)));
      qtest (Qltb (v2 (set2 (prev_s st) (laptime_valid t - last_sector2 t)))
                  (v2 (best_s_tb st)));
      destruct i as [|[|i]]; cbn in *; split; lra.
  - unfold update_s1. intros i. cbn [best_s_tb best_s_pb prev_s].
    qtest (Qltb (v0 (set0 (prev_s st) (curr_sector1 t)))
                (v0 (best_s_tb st)));
      destruct i as [|[|i]]; cbn in *; split; lra.
  - unfold update_s2. intros i. cbn [best_s_tb best_s_pb prev_s].
    qtest (Qltb (v1 (set1 (prev_s st) (curr_sector2 t - curr_sector1 t)))
                (v1 (best_s_tb st)));
      destruct i as [|[|i]]; cbn in *; split; lra.
Qed.

(** The state of the reset block with no saved record is ordered. *)
Lemma best_order_at_reset (combo : string) (session : list Q) :
  best_ordered (init_locals combo session no_sector_data).
Proof. intros [|[|i]]; cbn; split; apply Qle_refl. Qed.

(** X5: the delta against the theoretical best tells a new best.  On an
    iteration that records a sector whose theoretical best is valid, the
    delta published for it is the time recorded less the best so far, the
    no-delta flag is off, and the best is lowered exactly when that delta
    is negative. *)
Theorem negative_delta_is_new_best (st : locals) (t : telemetry) (i : nat) :
  sector_recorded st t i = true ->
  sector_time (get (best_s_tb st) i) = true ->
  let st' := update_data st t in
  get (delta_s_tb st') i = get (prev_s st') i - get (best_s_tb st) i
  /\ no_delta_s st' = false
  /\ (get (delta_s_tb st') i < 0 <->
      get (best_s_tb st') i < get (best_s_tb st) i)
  /\ (get (delta_s_tb st') i < 0 ->
      get (best_s_tb st') i = get (prev_s st') i)
  /\ (0 <= get (delta_s_tb st') i ->
      get (best_s_tb st') i = get (best_s_tb st) i).
Proof.
  intros F V. cbv zeta. unfold sector_recorded in F.
  apply andb_true_iff in F as [N F]. apply negb_true_iff in N.
  apply Z.eqb_neq in N.
  destruct i as [|[|i]]; cbn [get] in *.
  - destruct (second_branch_taken st t N F) as [-> _].
    unfold update_s1; cbn [delta_s_tb prev_s best_s_tb no_delta_s].
    rewrite V. cbn [negb].
    qtest (Qltb (v0 (set0 (prev_s st) (curr_sector1 t)))
                (v0 (best_s_tb st))); cbn in *;
      repeat split; try reflexivity; intros; try lra.
  - destruct (third_branch_taken st t N F) as [-> _].
    unfold update_s2; cbn [delta_s_tb prev_s best_s_tb no_delta_s].
    rewrite V. cbn [negb].
    qtest (Qltb (v1 (set1 (prev_s st) (curr_sector2 t - curr_sector1 t)))
                (v1 (best_s_tb st))); cbn in *;
      repeat split; try reflexivity; intros; try lra.
  - rewrite (first_branch_taken st t N F).
    unfold update_s3; cbn [delta_s_tb prev_s best_s_tb no_delta_s].
    rewrite V. cbn [negb].
    qtest (Qltb (v2 (set2 (prev_s st) (laptime_valid t - last_sector2 t)))
                (v2 (best_s_tb st))); cbn in *;
      repeat split; try reflexivity; intros; try lra.
Qed.

End SectorMore.

(** ** More on the sector record *)

Section SectorRecordMore.

Import Sectors.

Lemma pipe_split_field (s : string) :
  no_pipe s = true -> pipe_split s = [s].
Proof.
  induction s as [|c s IH]; [reflexivity|].
  cbn. intros H. apply andb_true_iff in H as [Hc Hs].
  apply negb_true_iff in Hc. rewrite Hc, (IH Hs). reflexivity.
Qed.

Lemma pipe_split_first (s rest : string) :
  no_pipe s = true ->
  pipe_split (s ++ String "|" rest) = s :: pipe_split rest.
Proof.
  induction s as [|c s IH]; [reflexivity|].
  cbn. intros H. apply andb_true_iff in H as [Hc Hs].
  apply negb_true_iff in Hc. rewrite Hc, (IH Hs). reflexivity.
Qed.

(** Splitting undoes joining, for fields without the separator. *)
Lemma pipe_split_join (fields : list string) :
  fields <> [] ->
  Forall (fun s => no_pipe s = true) fields ->
  pipe_split (pipe_join fields) = fields.
Proof.
  unfold pipe_join.
  induction fields as [|x fields IH]; intros N F; [contradiction|].
  inversion F as [|? ? Hx Hf]; subst.
  destruct fields as [|y fields].
  - cbn. apply pipe_split_field. assumption.
  - change (String.concat "|" (x :: y :: fields))
      with (x ++ String "|" (String.concat "|" (y :: fields)))%string.
    rewrite (pipe_split_first _ _ Hx). f_equal.
    apply IH; [discriminate | assumption].
Qed.

Variable py_float : string -> option Q.
Variable py_str : Q -> string.

(** X8: what [save_sector_data] writes, [load_sector_data] reads back in
    the same session.  With a session identity of three numbers, a wholly
    valid personal best, a combo without the separator, and numbers that
    [str] prints without the separator and [float] reads back, loading
    the record saved for a combo and session, for that combo and session,
    returns the best lap time and the two arrays that were saved. *)
Theorem sector_record_round_trip
        (cfg : config) (combo : string) (a b c best : Q) (tb pb : vec3) :
  no_pipe combo = true ->
  sector_time_all pb = true ->
  Forall (fun q => no_pipe (py_str q) = true
                   /\ exists q', py_float (py_str q) = Some q' /\ q' == q)
         [a; b; c; best; v0 tb; v1 tb; v2 tb; v0 pb; v1 pb; v2 pb] ->
  exists best' tb' pb',
    load_sector_data py_float
      (save_sector_data py_str cfg combo [a; b; c] pb best tb)
      combo [a; b; c]
    = Ok (best', tb', pb')
    /\ best' == best
    /\ (v0 tb' == v0 tb /\ v1 tb' == v1 tb /\ v2 tb' == v2 tb)
    /\ (v0 pb' == v0 pb /\ v1 pb' == v1 pb /\ v2 pb' == v2 pb).
Proof.
  intros Hc Hv F.
  repeat match goal with
         | H : Forall _ (_ :: _) |- _ =>
             let P := fresh "P" in
             inversion H as [|? ? P ?]; subst; clear H;
             destruct P as [? [? [? ?]]]
         end.
  unfold save_sector_data. rewrite Hv. cbn [List.length Nat.eqb negb andb].
  unfold load_sector_data, parse_save_string. cbn [sector_info].
  rewrite pipe_split_join;
    [| discriminate
     | cbn; unfold vec3_strs; repeat constructor; assumption ].
  unfold convert_value.
  cbn [Py.index nth_error Py.bind tl map app vec3_strs].
  rewrite (map_raise_ok py_float _ [x; x0; x1; x2; x3; x4; x5; x6; x7; x8]);
    [| cbn; repeat (f_equal; try assumption) ].
  unfold same_session.
  cbn -[Qeq_bool Qle_bool String.eqb].
  rewrite String.eqb_refl.
  cbn -[Qeq_bool Qle_bool].
  assert (Qeq_bool x a = true) as -> by (apply Qeqb_eq; assumption).
  cbn -[Qeq_bool Qle_bool].
  assert (Qle_bool x0 b = true) as ->
      by (apply Qle_bool_iff; apply Qle_lteq; right; assumption).
  cbn -[Qeq_bool Qle_bool].
  assert (Qle_bool x1 c = true) as ->
      by (apply Qle_bool_iff; apply Qle_lteq; right; assumption).
  cbn.
  do 3 eexists. split; [reflexivity|]. cbn. auto 10.
Qed.

(** X9: a record that is too short, the empty one included, is no data:
    loading gives the sentinel defaults.  But the marker of "no data" is
    the one-element list [["None"]], whose first element is compared with
    the combo: for a combo called "None" the test goes on to the missing
    second element and raises [IndexError]. *)
Theorem short_record_gives_defaults
        (cfg : config) (combo s0 : string) (session : list Q)
        (fields : list string) (values : list Q) :
  pipe_split (sector_info cfg) = s0 :: fields ->
  map py_float fields = map Some values ->
  (List.length values < 10)%nat ->
  (combo <> "None"%string ->
   load_sector_data py_float cfg combo session = Ok no_sector_data)
  /\ (combo = "None"%string ->
      load_sector_data py_float cfg combo session = Raise IndexError).
Proof.
  intros E M L. split; intros N.
  - eapply load_short_record; eassumption.
  - unfold load_sector_data.
    rewrite (parse_short_record _ _ _ _ _ E M L). cbn [Py.bind].
    unfold same_session. cbn [saved_0]. rewrite N. reflexivity.
Qed.

End SectorRecordMore.

Lemma sector_record_round_trip_witness :
  exists best' tb' pb',
    Sectors.load_sector_data Literal.py_float
      (Sectors.save_sector_data Literal.py_str Sample.empty_cfg "combo"
         [1; 600; 12] (Sectors.Vec3 30.2 30.8 31.5) 92.5
         (Sectors.Vec3 30 30.8 31.1))
      "combo" [1; 600; 12]
    = Ok (best', tb', pb')
    /\ best' == 92.5.
Proof.
  destruct (sector_record_round_trip
              Literal.py_float Literal.py_str Sample.empty_cfg "combo"
              1 600 12 92.5 (Sectors.Vec3 30 30.8 31.1)
              (Sectors.Vec3 30.2 30.8 31.5))
    as [best' [tb' [pb' [E [B _]]]]].
  - reflexivity.
  - reflexivity.
  - repeat constructor; eexists; split; reflexivity.
  - exists best', tb', pb'. split; assumption.
Defined.

Lemma short_record_gives_defaults_witness :
  Sectors.load_sector_data Literal.py_float Sample.empty_cfg "combo"
                           [1; 600; 12]
  = Ok Sectors.no_sector_data
  /\ Sectors.load_sector_data Literal.py_float Sample.empty_cfg "None"
                              [1; 600; 12]
     = Raise IndexError.
Proof.
  split.
  - apply (short_record_gives_defaults
             Literal.py_float Sample.empty_cfg "combo" "" [1; 600; 12]
             [] []); [reflexivity | reflexivity | cbn; lia | discriminate].
  - apply (short_record_gives_defaults
             Literal.py_float Sample.empty_cfg "None" "" [1; 600; 12]
             [] []); [reflexivity | reflexivity | cbn; lia | reflexivity].
Defined.

(** ** More on the fuel projections *)

Section FuelProjectionsMore.

Import Fuel.

(** X10: the fuel before the next stop is a remainder.  For a positive
    estimated consumption and a non-negative fuel at the start of the lap,
    [end_stint_fuel] returns what is left of that fuel after a whole number
    of laps: it is not negative, below one lap's consumption, and the fuel
    is that many laps' consumption plus it. *)
Theorem fuel_before_pit_is_remainder (amount_curr used_curr used_est : Q) :
  0 < used_est -> 0 <= amount_curr + used_curr ->
  exists left k,
    end_stint_fuel amount_curr used_curr used_est = Ok left
    /\ 0 <= left /\ left < used_est /\ (0 <= k)%Z
    /\ amount_curr + used_curr == inject_Z k * used_est + left.
Proof.
  intros U T.
  assert (~ used_est == 0) as N by lra.
  rewrite end_stint_fuel_total.
  rewrite (proj2 (truthy_nonzero used_est) N).
  set (q := (amount_curr + used_curr) / used_est).
  assert (0 <= q) as Q0.
  { subst q. apply Qle_shift_div_l; [exact U|]. lra. }
  assert (Py.modf_frac q = q - inject_Z (Qfloor q)) as ->.
  { unfold Py.modf_frac.
    assert (Qltb q 0 = false) as -> by (apply Qltb_ge; exact Q0).
    reflexivity. }
  pose proof (Qfloor_le q) as F1. pose proof (Qlt_floor q) as F2.
  rewrite inject_Z_plus in F2.
  exists ((q - inject_Z (Qfloor q)) * used_est), (Qfloor q).
  split; [reflexivity|]. split; [|split; [|split]].
  - apply Qmult_le_0_compat; lra.
  - setoid_replace used_est with (1 * used_est) at 2 by ring.
    apply Qmult_lt_compat_r; [exact U|].
    change (inject_Z 1) with 1 in F2. lra.
  - change 0%Z with (Qfloor (inject_Z 0)) at 1.
    rewrite <- (Qfloor_Z 0) at 1. apply Qfloor_resp_le. exact Q0.
  - subst q. field. exact N.
Qed.

(** X11: the end-lap pit count by regime, for a lap that ends with some
    empty capacity: fuel that fits in it counts as the fraction of it that
    is filled; more fuel counts as one stop, plus the rest over the
    capacity available at the later stops. *)
Theorem end_lap_pit_counts_by_regime (amount_need est_empty capacity : Q) :
  ~ est_empty == 0 -> ~ capacity == 0 ->
  exists n,
    end_lap_pit_counts amount_need est_empty capacity = Ok n
    /\ (amount_need <= est_empty -> n == amount_need / est_empty)
    /\ (est_empty < amount_need ->
        n == 1 + (amount_need - est_empty) / capacity).
Proof.
  intros E C. unfold end_lap_pit_counts.
  rewrite (proj2 (truthy_nonzero est_empty) E).
  rewrite div_ok by exact E. cbn [Py.bind].
  rewrite div_ok by exact C. cbn [Py.bind].
  eexists. split; [reflexivity|].
  unfold Py.min.
  qtest (Qltb est_empty amount_need); split; intros H; try lra.
  - field. split; assumption.
  - field. split; assumption.
Qed.

End FuelProjectionsMore.

Lemma fuel_before_pit_is_remainder_witness :
  exists left k,
    Fuel.end_stint_fuel 40 0.1 2.6 = Ok left
    /\ 0 <= left /\ left < 2.6 /\ (0 <= k)%Z
    /\ 40 + 0.1 == inject_Z k * 2.6 + left.
Proof.
  apply (fuel_before_pit_is_remainder 40 0.1 2.6); reflexivity || discriminate.
Defined.

Lemma end_lap_pit_counts_by_regime_witness :
  exists n,
    Fuel.end_lap_pit_counts 80 60 98 = Ok n
    /\ (80 <= 60 -> n == 80 / 60)
    /\ (60 < 80 -> n == 1 + (80 - 60) / 98).
Proof.
  apply (end_lap_pit_counts_by_regime 80 60 98); discriminate.
Defined.

(** ** More on the runs of the fuel estimator *)

Section FuelMore.

Import Fuel.

Variable round6 : Q -> Q.
Variable distance : xyz -> xyz -> Q.
Variable delta_telemetry : Q -> Q -> curve -> bool -> Q.

#[local] Abbreviation track := (Fuel.track round6 distance delta_telemetry).
#[local] Abbreviation update_data :=
  (Fuel.update_data round6 distance delta_telemetry).
#[local] Abbreviation run := (Fuel.run round6 distance delta_telemetry).




Lemma closed_curve_shape (st : locals) (t : telemetry) :
  staged st t = true -> closed_shape (closed_curve round6 st t).
Proof.
  unfold staged, stages, closed_shape, Fuel.closed_curve. intros S.
  apply andb_true_iff in S as [_ S]. apply andb_true_iff in S as [S _].
  apply Nat.ltb_lt in S. split.
  - rewrite length_app. cbn. lia.
  - eauto.
Qed.

(** One iteration keeps what is pending closed. *)
Lemma pending_closed_track (st : locals) (t : telemetry) :
  pending_closed st -> pending_closed (track st t).
Proof.
  intros [V D]. pose proof (closed_curve_shape st t) as C.
  unfold pending_closed, Fuel.track.
  cbn [validating delta_list_temp delayed_save delta_list_last].
  destruct (staged st t); [specialize (C eq_refl) | clear C];
    match goal with
    | |- context [if ?c then [DELTA_ZERO] else _] => destruct c eqn:K
    end;
    cbn [orb]; split; intros G;
    try discriminate G;
    try (match type of G with
         | (if ?e then false else _) = true =>
             destruct e; [discriminate G|]
         end);
    auto.
  apply V.
  apply andb_true_iff in K as [K _]. apply andb_true_iff in K as [K _].
  exact K.
Qed.

Lemma pending_closed_step (st : locals) (t : telemetry)
      (r : locals * output) :
  update_data st t = Ok r -> pending_closed st -> pending_closed (fst r).
Proof.
  intros H P.
  destruct (update_data_track _ _ _ _ _ _ H) as [laps [need ->]].
  exact (pending_closed_track st t P).
Qed.

(** A closed curve is one that [save_deltafuel] writes. *)
Lemma closed_curve_saved (fs : files) (combo : string) (l : curve) :
  closed_shape l ->
  save_deltafuel fs combo l = (combo, Numeric l) :: fs.
Proof.
  intros [L _]. unfold save_deltafuel.
  assert ((1 <? List.length l)%nat = true) as ->
      by (apply Nat.ltb_lt; lia).
  reflexivity.
Qed.

(** X13: a pending save is never lost to the gate of [save_deltafuel].
    From the state of the reset block, after any run of iterations, the
    curve waiting for validation and the curve waiting for the save are
    closed curves (three rows or more, the last of three entries), so that
    the save on the end of the session writes the file. *)
Theorem pending_save_is_written
        (combo : string) (loaded : curve * Q * Q)
        (ts : list telemetry) (sts : list locals) :
  run (init_locals combo loaded) ts = Ok sts ->
  Forall (fun s =>
            pending_closed s
            /\ (delayed_save s = true ->
                forall fs,
                  save_deltafuel fs (combo_id s) (delta_list_last s)
                  = (combo_id s, Numeric (delta_list_last s)) :: fs)) sts.
Proof.
  assert (pending_closed (init_locals combo loaded)) as P0.
  { destruct loaded as [[l u] lt]. split; discriminate. }
  revert P0. generalize (init_locals combo loaded). revert sts.
  induction ts as [|t ts IH]; intros sts st P H.
  - cbn in H. injection H as <-. constructor.
  - apply (run_cons round6 distance delta_telemetry) in H
      as [r [rest [Hr [Hrest ->]]]].
    pose proof (pending_closed_step _ _ _ Hr P) as P'.
    constructor.
    + split; [exact P'|]. intros D fs.
      apply closed_curve_saved. apply (proj2 P' D).
    + apply (IH rest (fst r)); assumption.
Qed.

End FuelMore.


Lemma pending_save_is_written_witness :
  exists sts,
    Fuel.run Literal.round6 Literal.distance Literal.delta_telemetry
             (Fuel.init_locals "combo" Fuel.missing_fuel_data)
             [Sample.lap_reading 200 10 400 false;
              Sample.lap_reading 292 0.1 5 false;
              Sample.lap_reading 292 10 400 false;
              Sample.lap_reading 384 0.1 5 false;
              Sample.lap_reading 384 1 50 false]
    = Ok sts
    /\ map (fun s => (Fuel.validating s, Fuel.delayed_save s)) sts
       = [(false, false); (false, false); (false, false);
          (true, false); (false, true)]
    /\ Forall pending_closed sts
    /\ Forall (fun s =>
                 Fuel.delayed_save s = true ->
                 Fuel.save_deltafuel [] (Fuel.combo_id s)
                                     (Fuel.delta_list_last s)
                 = [(Fuel.combo_id s, Fuel.Numeric (Fuel.delta_list_last s))])
              sts.
Proof.
  destruct (Fuel.run Literal.round6 Literal.distance Literal.delta_telemetry
                     (Fuel.init_locals "combo" Fuel.missing_fuel_data)
                     [Sample.lap_reading 200 10 400 false;
                      Sample.lap_reading 292 0.1 5 false;
                      Sample.lap_reading 292 10 400 false;
                      Sample.lap_reading 384 0.1 5 false;
                      Sample.lap_reading 384 1 50 false])
    as [sts|e] eqn:E.
  - exists sts. split; [reflexivity|].
    pose proof (pending_save_is_written _ _ _ _ _ _ _ E) as F.
    split; [|split].
    + vm_compute in E. injection E as <-. reflexivity.
    + apply (Forall_impl _ (fun s H => proj1 H) F).
    + apply (Forall_impl _ (fun s H D => proj2 H D []) F).
  - vm_compute in E. discriminate E.
Defined.

(** ** More on the fuel files *)

Section FuelFiles.

Import Fuel.

Variable val_delta_list : curve -> result (bool * curve).

#[local] Abbreviation load_deltafuel := (Fuel.load_deltafuel val_delta_list).

Lemma open_read_absent (fs : files) (combo : string) :
  (forall f, ~ In (combo, f) fs) ->
  open_read fs combo = Raise FileNotFoundError.
Proof.
  induction fs as [|[name f] fs IH]; intros A; [reflexivity|].
  cbn. destruct (String.eqb_spec name combo) as [-> | N].
  - exfalso. apply (A f). left. reflexivity.
  - apply IH. intros g G. apply (A g). right. exact G.
Qed.

Lemma open_read_saved (fs : files) (combo : string) (l : curve) :
  open_read ((combo, Numeric l) :: fs) combo = Ok (Numeric l).
Proof. cbn. rewrite String.eqb_refl. reflexivity. Qed.

Lemma index_last_app {A : Type} (body : list A) (row : A) :
  Py.index_last (body ++ [row]) = Ok row.
Proof. unfold Py.index_last. rewrite rev_app_distr. reflexivity. Qed.

Lemma last_row_short (body : curve) (row : row) :
  (List.length row < 3)%nat ->
  last_row_reads (body ++ [row]) = Raise IndexError.
Proof.
  intros L. unfold last_row_reads. rewrite index_last_app. cbn [Py.bind].
  destruct row as [|a [|b [|c row]]]; try reflexivity.
  cbn in L. lia.
Qed.

Lemma last_row_closed (l : curve) :
  closed_shape l ->
  exists body a b c,
    l = body ++ [[a; b; c]] /\ last_row_reads l = Ok (b, c).
Proof.
  intros [_ [body [a [b [c ->]]]]]. exists body, a, b, c.
  split; [reflexivity|].
  unfold last_row_reads. rewrite index_last_app. reflexivity.
Qed.

(** X16: a missing, empty or short file is missing fuel data.  With no
    file for the combo, a file of numbers with no row, or a file of numbers
    whose last row has fewer than three entries, [load_deltafuel] returns
    the one-row curve [[(99999,0,0)]] with no usage and no lap time, and
    leaves the files as they are. *)
Theorem unreadable_fuel_file_is_missing_data (fs : files) (combo : string) :
  (forall f, ~ In (combo, f) fs)
  \/ open_read fs combo = Ok (Numeric [])
  \/ (exists body row,
         open_read fs combo = Ok (Numeric (body ++ [row]))
         /\ (List.length row < 3)%nat) ->
  load_deltafuel fs combo = Ok (fs, missing_fuel_data).
Proof.
  unfold Fuel.load_deltafuel.
  intros [A | [E | [body [row [E L]]]]].
  - rewrite (open_read_absent _ _ A). reflexivity.
  - rewrite E. reflexivity.
  - rewrite E, (last_row_short _ _ L). reflexivity.
Qed.

(** X17: a curve saved is the curve loaded.  A closed curve that the
    validator finds well formed, once saved for a combo, loads for that
    combo as the same curve, with the usage and the lap time of its last
    row, and loading writes nothing. *)
Theorem fuel_curve_round_trip (fs : files) (combo : string) (l : curve) :
  closed_shape l ->
  val_delta_list l = Ok (true, l) ->
  exists body pos used laptime,
    l = body ++ [[pos; used; laptime]]
    /\ load_deltafuel (save_deltafuel fs combo l) combo
       = Ok (save_deltafuel fs combo l, (l, used, laptime)).
Proof.
  intros C V.
  destruct (last_row_closed l C) as [body [a [b [c [E R]]]]].
  exists body, a, b, c. split; [exact E|].
  rewrite (closed_curve_saved fs combo l C).
  unfold Fuel.load_deltafuel. rewrite open_read_saved, R, V. reflexivity.
Qed.

(** X18: a corrected curve is saved back before it is used.  When the
    validator changes the list read from the file, and leaves a closed
    curve, that curve becomes the file of the combo and is what
    [load_deltafuel] returns, with the usage and lap time of its own last
    row, not those read before the correction. *)
Theorem corrected_curve_is_saved_back
        (fs : files) (combo : string) (l l' : curve) :
  open_read fs combo = Ok (Numeric l) ->
  (exists u lt, last_row_reads l = Ok (u, lt)) ->
  val_delta_list l = Ok (false, l') ->
  closed_shape l' ->
  exists body pos used laptime,
    l' = body ++ [[pos; used; laptime]]
    /\ load_deltafuel fs combo
       = Ok ((combo, Numeric l') :: fs, (l', used, laptime)).
Proof.
  intros E [u [lt R]] V C.
  destruct (last_row_closed l' C) as [body [a [b [c [E' R']]]]].
  exists body, a, b, c. split; [exact E'|].
  unfold Fuel.load_deltafuel. rewrite E, R, V.
  rewrite (closed_curve_saved fs combo l' C), R'. reflexivity.
Qed.

End FuelFiles.

Lemma unreadable_fuel_file_is_missing_data_witness :
  Fuel.load_deltafuel Literal.val_delta_list
                      [("other"%string, Fuel.Numeric Sample.lap_curve);
                       ("combo"%string, Fuel.Numeric [[0; 0]; [4010; 2.5]])]
                      "combo"
  = Ok ([("other"%string, Fuel.Numeric Sample.lap_curve);
         ("combo"%string, Fuel.Numeric [[0; 0]; [4010; 2.5]])],
        Fuel.missing_fuel_data).
Proof.
  apply unreadable_fuel_file_is_missing_data.
  right. right. exists [[0; 0]], [4010; 2.5].
  split; [reflexivity | cbn; lia].
Defined.

Lemma fuel_curve_round_trip_witness :
  exists body pos used laptime,
    Sample.lap_curve = body ++ [[pos; used; laptime]]
    /\ Fuel.load_deltafuel Literal.val_delta_list
                           (Fuel.save_deltafuel [] "combo" Sample.lap_curve)
                           "combo"
       = Ok (Fuel.save_deltafuel [] "combo" Sample.lap_curve,
             (Sample.lap_curve, used, laptime)).
Proof.
  apply (fuel_curve_round_trip Literal.val_delta_list [] "combo"
                               Sample.lap_curve).
  - split; [cbn; lia|]. exists [[0; 0]; [2000; 1.2]], 4010, 2.5, 92.
    reflexivity.
  - reflexivity.
Defined.

Lemma corrected_curve_is_saved_back_witness :
  exists body pos used laptime,
    Sample.lap_curve = body ++ [[pos; used; laptime]]
    /\ Fuel.load_deltafuel Sample.val_dropping Sample.stray_files "combo"
       = Ok (("combo"%string, Fuel.Numeric Sample.lap_curve)
               :: Sample.stray_files,
             (Sample.lap_curve, used, laptime)).
Proof.
  apply (corrected_curve_is_saved_back
           Sample.val_dropping Sample.stray_files "combo"
           [[0; 0]; [3900; 0.1]; [2000; 1.2]; [4010; 2.5; 92]]
           Sample.lap_curve).
  - reflexivity.
  - exists 2.5, 92. reflexivity.
  - reflexivity.
  - split; [cbn; lia|]. exists [[0; 0]; [2000; 1.2]], 4010, 2.5, 92.
    reflexivity.
Defined.

(** ** More on the two workers *)

Section WorkersMore.

Variable py_float : string -> option Q.
Variable py_str : Q -> string.
Variable round6 : Q -> Q.
Variable distance : Fuel.xyz -> Fuel.xyz -> Q.
Variable delta_telemetry : Q -> Q -> Fuel.curve -> bool -> Q.
Variable val_delta_list : Fuel.curve -> result (bool * Fuel.curve).

#[local] Abbreviation sectors_wake := (Sectors.wake py_float py_str).
#[local] Abbreviation sectors_body := (Sectors.loop_body py_float py_str).
#[local] Abbreviation fuel_wake :=
  (Fuel.wake round6 distance delta_telemetry val_delta_list).
#[local] Abbreviation fuel_body :=
  (Fuel.loop_body round6 distance delta_telemetry val_delta_list).

(** X19: [start()] between [stop()] and the next wake is lost.  A running
    worker that is stopped and started again before its thread wakes is
    left as [stop()] left it, event set: the next wake ends the thread and
    marks the worker stopped.  Only then does [start()] take effect: it
    clears the event and the next wake runs the loop body, the session to
    be armed anew. *)
Theorem start_after_stop_is_lost
        (ws : Sectors.worker) (es es' : Sectors.env)
        (wf : Fuel.worker) (ef ef' : Fuel.env) :
  Sectors.stopped ws = false ->
  Fuel.stopped wf = false ->
  (Sectors.start (Sectors.stop ws) = Sectors.stop ws
   /\ sectors_wake (Sectors.start (Sectors.stop ws)) es
      = Ok (Sectors.loop_exit (Sectors.stop ws))
   /\ let w := Sectors.start (Sectors.loop_exit (Sectors.stop ws)) in
      Sectors.stopped w = false /\ Sectors.event w = false
      /\ Sectors.reset w = false
      /\ sectors_wake w es' = sectors_body w es')
  /\ (Fuel.start (Fuel.stop wf) = Fuel.stop wf
      /\ fuel_wake (Fuel.start (Fuel.stop wf)) ef
         = Ok (Fuel.loop_exit (Fuel.stop wf))
      /\ let w := Fuel.start (Fuel.loop_exit (Fuel.stop wf)) in
         Fuel.stopped w = false /\ Fuel.event w = false
         /\ Fuel.reset w = false
         /\ fuel_wake w ef' = fuel_body w ef').
Proof.
  intros Hs Hf. split.
  - unfold Sectors.start at 1 2. cbn [Sectors.stop Sectors.stopped].
    rewrite Hs. repeat split.
    unfold Sectors.wake. cbn. rewrite Hs. reflexivity.
  - unfold Fuel.start at 1 2. cbn [Fuel.stop Fuel.stopped].
    rewrite Hf. repeat split.
    unfold Fuel.wake. cbn. rewrite Hf. reflexivity.
Qed.

(** X20: nothing is written but by the flush or the load.  A wake of the
    sector worker that changes the settings is the wake that sees the
    session over after having seen it active; a wake of the fuel worker
    that changes the files is that wake, or the wake that arms a session
    (where the load may save a corrected curve back). *)
Theorem written_only_on_flush_or_load
        (ws ws' : Sectors.worker) (es : Sectors.env)
        (wf wf' : Fuel.worker) (ef : Fuel.env) :
  (sectors_wake ws es = Ok ws' ->
   Sectors.cfg ws' <> Sectors.cfg ws ->
   Sectors.stopped ws = false /\ Sectors.event ws = false
   /\ Sectors.api_state es = false /\ Sectors.reset ws = true)
  /\ (fuel_wake wf ef = Ok wf' ->
      Fuel.disk wf' <> Fuel.disk wf ->
      Fuel.stopped wf = false /\ Fuel.event wf = false
      /\ (Fuel.api_state ef = false /\ Fuel.reset wf = true
          \/ Fuel.api_state ef = true /\ Fuel.reset wf = false)).
Proof.
  split.
  - unfold Sectors.wake, Sectors.loop_body.
    destruct (Sectors.stopped ws);
      [intros H; injection H as <-; intros C; contradiction|].
    destruct (Sectors.event ws);
      [intros H; injection H as <-; intros C; contradiction|].
    destruct (Sectors.api_state es).
    + destruct (Sectors.reset ws); cbn [negb].
      * destruct (Sectors.bound (Sectors.vars ws)); [|discriminate].
        cbn [Py.bind]. intros H; injection H as <-.
        intros C; contradiction.
      * destruct (Sectors.load_sector_data _ _ _ _); [|discriminate].
        cbn [Py.bind]. intros H; injection H as <-.
        intros C; contradiction.
    + destruct (Sectors.reset ws); [auto|].
      intros H; injection H as <-; intros C; contradiction.
  - unfold Fuel.wake, Fuel.loop_body.
    destruct (Fuel.stopped wf);
      [intros H; injection H as <-; intros C; contradiction|].
    destruct (Fuel.event wf);
      [intros H; injection H as <-; intros C; contradiction|].
    destruct (Fuel.api_state ef).
    + destruct (Fuel.reset wf); cbn [negb]; [|auto].
      destruct (Fuel.bound (Fuel.vars wf)); [|discriminate].
      cbn [Py.bind snd fst].
      destruct (Fuel.update_data _ _ _ _ _); [|discriminate].
      cbn [Py.bind]. intros H; injection H as <-.
      intros C; contradiction.
    + destruct (Fuel.reset wf); [auto|].
      intros H; injection H as <-; intros C; contradiction.
Qed.

Lemma sectors_bound_wake (w w' : Sectors.worker) (e : Sectors.env) :
  sectors_bound w -> sectors_wake w e = Ok w' -> sectors_bound w'.
Proof.
  unfold sectors_bound, Sectors.wake, Sectors.loop_body. intros B.
  destruct (Sectors.stopped w); [intros H; injection H as <-; exact B|].
  destruct (Sectors.event w); [intros H; injection H as <-; exact B|].
  destruct (Sectors.api_state e).
  - destruct (if negb (Sectors.reset w) then _ else _); [|discriminate].
    cbn [Py.bind]. intros H; injection H as <-. cbn. eauto.
  - destruct (Sectors.reset w) eqn:R.
    + destruct (Sectors.bound (Sectors.vars w)); [|discriminate].
      cbn [Py.bind]. intros H; injection H as <-. cbn. discriminate.
    + intros H; injection H as <-. rewrite R. discriminate.
Qed.

Lemma fuel_bound_wake (w w' : Fuel.worker) (e : Fuel.env) :
  fuel_bound w -> fuel_wake w e = Ok w' -> fuel_bound w'.
Proof.
  unfold fuel_bound, Fuel.wake, Fuel.loop_body. intros B.
  destruct (Fuel.stopped w); [intros H; injection H as <-; exact B|].
  destruct (Fuel.event w); [intros H; injection H as <-; exact B|].
  destruct (Fuel.api_state e).
  - destruct (if negb (Fuel.reset w) then _ else _); [|discriminate].
    cbn [Py.bind].
    destruct (Fuel.update_data _ _ _ _ _); [|discriminate].
    cbn [Py.bind]. intros H; injection H as <-. cbn. eauto.
  - destruct (Fuel.reset w) eqn:R.
    + destruct (Fuel.bound (Fuel.vars w)); [|discriminate].
      cbn [Py.bind]. intros H; injection H as <-. cbn. discriminate.
    + intros H; injection H as <-. rewrite R. discriminate.
Qed.

(** X21: the flush reads only what is bound, and never raises.  The
    variables of the reset block are bound whenever [reset] is set: this
    holds after [start()] and after every wake that returns; and under it
    a wake that finds no session active always returns. *)
Theorem idle_wake_always_returns
        (ws : Sectors.worker) (es : Sectors.env)
        (wf : Fuel.worker) (ef : Fuel.env) :
  sectors_bound ws ->
  fuel_bound wf ->
  (sectors_bound (Sectors.start ws)
   /\ (forall w', sectors_wake ws es = Ok w' -> sectors_bound w')
   /\ (Sectors.api_state es = false -> exists w', sectors_wake ws es = Ok w'))
  /\ (fuel_bound (Fuel.start wf)
      /\ (forall w', fuel_wake wf ef = Ok w' -> fuel_bound w')
      /\ (Fuel.api_state ef = false -> exists w', fuel_wake wf ef = Ok w')).
Proof.
  intros Bs Bf. split; split; [| split | | split].
  - unfold sectors_bound, Sectors.start.
    destruct (Sectors.stopped ws); [cbn; discriminate | exact Bs].
  - intros w'. apply sectors_bound_wake. exact Bs.
  - intros A. unfold Sectors.wake, Sectors.loop_body. rewrite A.
    destruct (Sectors.stopped ws); [eauto|].
    destruct (Sectors.event ws); [eauto|].
    destruct (Sectors.reset ws) eqn:R; [|eauto].
    destruct (Bs R) as [st ->]. cbn. eauto.
  - unfold fuel_bound, Fuel.start.
    destruct (Fuel.stopped wf); [cbn; discriminate | exact Bf].
  - intros w'. apply fuel_bound_wake. exact Bf.
  - intros A. unfold Fuel.wake, Fuel.loop_body. rewrite A.
    destruct (Fuel.stopped wf); [eauto|].
    destruct (Fuel.event wf); [eauto|].
    destruct (Fuel.reset wf) eqn:R; [|eauto].
    destruct (Bf R) as [st ->]. cbn. eauto.
Qed.

End WorkersMore.

Lemma start_after_stop_is_lost_witness :
  Sectors.stopped Sample.sectors_active = false
  /\ Fuel.stopped Sample.fuel_active = false
  /\ Fuel.wake Literal.round6 Literal.distance Literal.delta_telemetry
               Literal.val_delta_list
               (Fuel.start (Fuel.stop Sample.fuel_active))
               Sample.fuel_env_idle
     = Ok (Fuel.loop_exit (Fuel.stop Sample.fuel_active)).
Proof.
  split; [reflexivity|]. split; [reflexivity|].
  exact (proj1 (proj2 (proj2 (start_after_stop_is_lost
                                Literal.py_float Literal.py_str
                                Literal.round6 Literal.distance
                                Literal.delta_telemetry Literal.val_delta_list
                                Sample.sectors_active
                                Sample.sectors_env_idle Sample.sectors_env
                                Sample.fuel_active
                                Sample.fuel_env_idle Sample.fuel_env_idle
                                eq_refl eq_refl)))).
Defined.

Lemma idle_wake_always_returns_witness :
  sectors_bound Sample.sectors_active
  /\ fuel_bound Sample.fuel_active
  /\ exists w',
       Fuel.wake Literal.round6 Literal.distance Literal.delta_telemetry
                 Literal.val_delta_list Sample.fuel_active
                 Sample.fuel_env_idle
       = Ok w'.
Proof.
  assert (sectors_bound Sample.sectors_active) as Bs
      by (intros _; eexists; reflexivity).
  assert (fuel_bound Sample.fuel_active) as Bf
      by (intros _; eexists; reflexivity).
  split; [exact Bs|]. split; [exact Bf|].
  exact (proj2 (proj2 (proj2 (idle_wake_always_returns
                                Literal.py_float Literal.py_str
                                Literal.round6 Literal.distance
                                Literal.delta_telemetry Literal.val_delta_list
                                Sample.sectors_active Sample.sectors_env_idle
                                Sample.fuel_active Sample.fuel_env_idle
                                Bs Bf)))
               eq_refl).
Defined.

(** ** More on one iteration *)

Section TickMore.

Variable round6 : Q -> Q.
Variable distance : Fuel.xyz -> Fuel.xyz -> Q.
Variable delta_telemetry : Q -> Q -> Fuel.curve -> bool -> Q.

#[local] Abbreviation track := (Fuel.track round6 distance delta_telemetry).

(** X14: the reference lap changes only on a confirmation.  An iteration
    that changes the reference curve, the last usage or the last lap time
    is one with a curve waiting for validation (from before, or staged on
    it), read between 0.2 s and 3 s into the lap with a positive last lap
    time; it takes that lap time and the usage handed over at the lap
    boundary, ends the validation and asks for the save. *)
Theorem reference_changes_only_when_confirmed
        (st : Fuel.locals) (t : Fuel.telemetry) :
  Fuel.delta_list_last (track st t) <> Fuel.delta_list_last st
  \/ Fuel.used_last (track st t) <> Fuel.used_last st
  \/ Fuel.laptime_last (track st t) <> Fuel.laptime_last st ->
  (Fuel.validating st = true \/ Fuel.staged st t = true)
  /\ 0.2 < Fuel.laptime_curr t /\ Fuel.laptime_curr t <= 3
  /\ 0 < Fuel.laptime_valid t
  /\ Fuel.laptime_last (track st t) = Fuel.laptime_valid t
  /\ Fuel.used_last (track st t) = Fuel.used_last_raw (track st t)
  /\ Fuel.delayed_save (track st t) = true
  /\ Fuel.validating (track st t) = false
  /\ Fuel.delta_list_temp (track st t) = [Fuel.DELTA_ZERO].
Proof.
  unfold Fuel.track.
  cbn [Fuel.delta_list_last Fuel.used_last Fuel.laptime_last
       Fuel.used_last_raw Fuel.delayed_save Fuel.validating
       Fuel.delta_list_temp].
  match goal with
  | |- context [if ?c then [Fuel.DELTA_ZERO] else _] => destruct c eqn:K
  end.
  - intros _. cbn [orb].
    apply andb_true_iff in K as [K L]. apply andb_true_iff in K as [V W].
    apply andb_true_iff in W as [W1 W2].
    apply Qltb_lt in L. apply Qltb_lt in W1. apply Qle_bool_iff in W2.
    repeat split; auto.
    destruct (Fuel.staged st t); auto.
  - intros [C | [C | C]]; exfalso; apply C; reflexivity.
Qed.

(** X15: the first iteration of a session always takes the position for
    changed.  The last global position of the reset block is a list and a
    reading is a tuple, which never compare equal: whatever the reading,
    the estimated position is advanced by the distance from the origin to
    it, and the delta is computed. *)
Theorem first_iteration_moves_from_origin
        (combo : string) (loaded : Fuel.curve * Q * Q) (t : Fuel.telemetry) :
  let st := Fuel.init_locals combo loaded in
  Fuel.gps_last (track st t) = Fuel.AsTuple (Fuel.gps_curr t)
  /\ Fuel.pos_estimate (track st t)
     = Fuel.pos_last (track st t) + distance (0, 0, 0) (Fuel.gps_curr t)
  /\ Fuel.delta_fuel (track st t)
     = delta_telemetry (Fuel.pos_estimate (track st t))
                       (Fuel.used_curr (track st t))
                       (Fuel.delta_list_last (track st t))
                       (Qltb 0.3 (Fuel.laptime_curr t)
                        && negb (Fuel.in_garage t)).
Proof.
  destruct loaded as [[l u] lt]. cbv zeta.
  unfold Fuel.track.
  cbn [Fuel.init_locals Fuel.gps_last Fuel.pos_estimate Fuel.pos_last
       Fuel.delta_fuel Fuel.used_curr Fuel.delta_list_last
       Fuel.last_lap_stime Fuel.position_eqb Fuel.coords negb].
  assert (Fuel.new_lap (Fuel.lap_stime t) (-1) = false) as ->.
  { unfold Fuel.new_lap. rewrite andb_false_iff. right. reflexivity. }
  repeat split.
  repeat match goal with
         | |- context [if ?c then _ else _] => destruct c
         end; reflexivity.
Qed.

End TickMore.

Section SectorDeltas.

Import Sectors.

(** X6: the first time of a sector.  On an iteration that records a
    sector whose theoretical best is not a valid time (the sentinel of a
    session without record), no delta is published for it: the flag is
    set, the delta keeps its value, and the time recorded becomes the best
    if it is below it. *)
Theorem first_time_has_no_delta (st : locals) (t : telemetry) (i : nat) :
  sector_recorded st t i = true ->
  sector_time (get (best_s_tb st) i) = false ->
  let st' := update_data st t in
  no_delta_s st' = true
  /\ get (delta_s_tb st') i = get (delta_s_tb st) i
  /\ (get (prev_s st') i < get (best_s_tb st) i ->
      get (best_s_tb st') i = get (prev_s st') i)
  /\ (get (best_s_tb st) i <= get (prev_s st') i ->
      get (best_s_tb st') i = get (best_s_tb st) i).
Proof.
  intros F V. cbv zeta. unfold sector_recorded in F.
  apply andb_true_iff in F as [N F]. apply negb_true_iff in N.
  apply Z.eqb_neq in N.
  destruct i as [|[|i]]; cbn [get] in *.
  - destruct (second_branch_taken st t N F) as [-> _].
    unfold update_s1; cbn [delta_s_tb prev_s best_s_tb no_delta_s].
    rewrite V. cbn [negb].
    qtest (Qltb (v0 (set0 (prev_s st) (curr_sector1 t)))
                (v0 (best_s_tb st))); cbn in *;
      repeat split; try reflexivity; intros; lra.
  - destruct (third_branch_taken st t N F) as [-> _].
    unfold update_s2; cbn [delta_s_tb prev_s best_s_tb no_delta_s].
    rewrite V. cbn [negb].
    qtest (Qltb (v1 (set1 (prev_s st) (curr_sector2 t - curr_sector1 t)))
                (v1 (best_s_tb st))); cbn in *;
      repeat split; try reflexivity; intros; lra.
  - rewrite (first_branch_taken st t N F).
    unfold update_s3; cbn [delta_s_tb prev_s best_s_tb no_delta_s].
    rewrite V. cbn [negb].
    qtest (Qltb (v2 (set2 (prev_s st) (laptime_valid t - last_sector2 t)))
                (v2 (best_s_tb st))); cbn in *;
      repeat split; try reflexivity; intros; lra.
Qed.

(** X7: the delta to the personal best adds up over the lap.  Against a
    wholly valid personal best, three iterations that record sector 1,
    sector 2 and sector 3 in turn leave, as the delta of sector 3, the sum
    of the three times recorded less the sum of the three personal-best
    sectors: the gap to the personal-best lap at the line. *)
Theorem personal_delta_adds_up (st : locals) (t1 t2 t3 : telemetry) :
  last_sector_idx st <> 1%Z ->
  in_s2 t1 = true -> in_s3 t2 = true -> in_s1 t3 = true ->
  sector_time_all (best_s_pb st) = true ->
  let st' := update_data (update_data (update_data st t1) t2) t3 in
  v2 (delta_s_pb st')
  == v0 (prev_s st') + v1 (prev_s st') + v2 (prev_s st')
     - (v0 (best_s_pb st) + v1 (best_s_pb st) + v2 (best_s_pb st)).
Proof.
  intros N G1 G2 G3 V. cbv zeta.
  assert (sector_idx t1 = 1%Z) as I1.
  { unfold in_s2 in G1. apply andb_true_iff in G1 as [G _].
    now apply Z.eqb_eq in G. }
  destruct (second_branch_taken st t1) as [E1 _];
    [rewrite I1; exact N | exact G1 |].
  rewrite E1.
  destruct (third_branch_taken (update_s1 st t1) t2) as [E2 I2].
  { unfold update_s1; cbn [last_sector_idx].
    unfold in_s3 in G2. apply andb_true_iff in G2 as [G _].
    apply andb_true_iff in G as [G _]. apply Z.eqb_eq in G.
    rewrite I1, G. discriminate. }
  { exact G2. }
  rewrite E2.
  rewrite (first_branch_taken (update_s2 (update_s1 st t1) t2) t3).
  - unfold sector_time_all in V.
    apply andb_true_iff in V as [V V2]. apply andb_true_iff in V as [V0 V1].
    unfold update_s3, update_s2, update_s1;
      cbn [delta_s_pb best_s_pb prev_s set0 set1 set2 v0 v1 v2].
    rewrite V0, V1, V2. cbn [v0 v1 v2 set0 set1 set2]. ring.
  - unfold update_s2; cbn [last_sector_idx].
    rewrite I2, (first_branch_index _ G3). discriminate.
  - exact G3.
Qed.

End SectorDeltas.

Lemma best_order_kept_witness :
  best_ordered (Sectors.init_locals "combo" [1; 600; 12]
                                    Sectors.no_sector_data)
  /\ best_ordered
       (fold_left Sectors.update_data
                  [Sample.reading_s1; Sample.reading_s2; Sample.reading_s3]
                  (Sectors.init_locals "combo" [1; 600; 12]
                                       Sectors.no_sector_data)).
Proof.
  split; [apply best_order_at_reset|].
  apply best_order_kept. apply best_order_at_reset.
Defined.

Lemma splits_add_up_to_lap_time_witness :
  let st' :=
    Sectors.update_data
      (Sectors.update_data
         (Sectors.update_data
            (Sectors.init_locals "combo" [1; 600; 12] Sectors.no_sector_data)
            Sample.reading_s1)
         Sample.reading_s2)
      Sample.reading_s3 in
  Sectors.prev_s st' = Sectors.Vec3 30.2 (61 - 30.2) (92.5 - 61)
  /\ Sectors.v0 (Sectors.prev_s st') + Sectors.v1 (Sectors.prev_s st')
     + Sectors.v2 (Sectors.prev_s st') == 92.5.
Proof.
  destruct (splits_add_up_to_lap_time
              (Sectors.init_locals "combo" [1; 600; 12]
                                   Sectors.no_sector_data)
              Sample.reading_s1 Sample.reading_s2 Sample.reading_s3)
    as [P S]; [discriminate | reflexivity | reflexivity | reflexivity |].
  split; [exact P | apply S; reflexivity].
Defined.

Lemma negative_delta_is_new_best_witness :
  sector_recorded Sample.sectors_st Sample.lap_faster 2 = true
  /\ Sectors.sector_time
       (Sectors.get (Sectors.best_s_tb Sample.sectors_st) 2) = true
  /\ Sectors.no_delta_s
       (Sectors.update_data Sample.sectors_st Sample.lap_faster) = false.
Proof.
  split; [reflexivity|]. split; [reflexivity|].
  exact (proj1 (proj2 (negative_delta_is_new_best
                         Sample.sectors_st Sample.lap_faster 2
                         eq_refl eq_refl))).
Defined.

Lemma first_time_has_no_delta_witness :
  Sectors.no_delta_s
    (Sectors.update_data
       (Sectors.init_locals "combo" [1; 600; 12] Sectors.no_sector_data)
       Sample.reading_s1) = true.
Proof.
  exact (proj1 (first_time_has_no_delta
                  (Sectors.init_locals "combo" [1; 600; 12]
                                       Sectors.no_sector_data)
                  Sample.reading_s1 0 eq_refl eq_refl)).
Defined.

Lemma personal_delta_adds_up_witness :
  let st' :=
    Sectors.update_data
      (Sectors.update_data
         (Sectors.update_data Sample.sectors_st Sample.reading_s1)
         Sample.reading_s2)
      Sample.reading_s3 in
  Sectors.v2 (Sectors.delta_s_pb st')
  == Sectors.v0 (Sectors.prev_s st') + Sectors.v1 (Sectors.prev_s st')
     + Sectors.v2 (Sectors.prev_s st')
     - (30.2 + 30.8 + 31.5).
Proof.
  apply (personal_delta_adds_up
           Sample.sectors_st
           Sample.reading_s1 Sample.reading_s2 Sample.reading_s3);
    reflexivity || discriminate.
Defined.

Lemma reference_changes_only_when_confirmed_witness :
  Fuel.delta_list_last
    (Fuel.track Literal.round6 Literal.distance Literal.delta_telemetry
                Sample.fuel_st_pending
                (Sample.with_laptime (Sample.fuel_reading 292 40 false) 1))
  <> Fuel.delta_list_last Sample.fuel_st_pending
  /\ Fuel.delayed_save
       (Fuel.track Literal.round6 Literal.distance Literal.delta_telemetry
                   Sample.fuel_st_pending
                   (Sample.with_laptime (Sample.fuel_reading 292 40 false) 1))
     = true.
Proof.
  assert (Fuel.delta_list_last
            (Fuel.track Literal.round6 Literal.distance
                        Literal.delta_telemetry
                        Sample.fuel_st_pending
                        (Sample.with_laptime
                           (Sample.fuel_reading 292 40 false) 1))
          <> Fuel.delta_list_last Sample.fuel_st_pending) as N
      by (intros C; vm_compute in C; discriminate C).
  split; [exact N|].
  apply (reference_changes_only_when_confirmed
           Literal.round6 Literal.distance Literal.delta_telemetry
           Sample.fuel_st_pending
           (Sample.with_laptime (Sample.fuel_reading 292 40 false) 1)
           (or_introl N)).
Defined.
